(** * pkg/adapter/containers.go: the local container adapter

    A shallow embedding of the adapter layer that sits between the podman
    command line and the libpod engine: batch stop / kill / wait, log
    fan-in, container creation, the run orchestrator and the exit-file
    reader.

    The engine, the logger, the file system and the pieces of the Go
    library whose code is not part of the package are collaborators: they
    are the fields of the [Env] class below, and every call made to one
    of them is recorded, with its arguments and its result, in the trace of
    the world the adapter runs in. *)

From Stdlib Require Import ZArith Ascii String List Lia Bool.
From stdpp Require Import base gmap strings list.

Local Open Scope string_scope.
Local Open Scope Z_scope.
Local Open Scope list_scope.

(** ** Go integers *)

Module GoInt.

(** [int] and [uint] are 64 bits wide on the platforms podman builds for. *)
Definition width : Z := 64.
Definition modulus : Z := 2 ^ width.
Definition max_int : Z := 2 ^ (width - 1) - 1.
Definition min_int : Z := - 2 ^ (width - 1).

(** Conversion to an unsigned 64-bit integer: [uint(x)], [uint64(x)]. *)
Definition to_uint (x : Z) : Z := x mod modulus.

(** Conversion to a signed 64-bit integer: [int(x)]; also the result of
    an [int] operation whose mathematical value is [x]. *)
Definition to_int (x : Z) : Z :=
  let r := x mod modulus in
  if r <? 2 ^ (width - 1) then r else r - modulus.

Definition mul (x y : Z) : Z := to_int (x * y).
Definition add (x y : Z) : Z := to_int (x + y).

End GoInt.

(** ** Strings: the functions of [strings] and [strconv] the adapter uses *)

Module GoString.

(** [strings.HasPrefix]. *)
Fixpoint HasPrefix (s p : string) {struct p} : bool :=
  match p, s with
  | EmptyString, _ => true
  | String b p', String a s' => if Ascii.eqb a b then HasPrefix s' p' else false
  | String _ _, EmptyString => false
  end.

(** [strings.Index s sub]: the byte index of the first occurrence of
    [sub] in [s], or -1. *)
Fixpoint Index_from (i : Z) (s sub : string) : Z :=
  if HasPrefix s sub then i
  else match s with
       | EmptyString => -1
       | String _ s' => Index_from (i + 1) s' sub
       end.

Definition Index (s sub : string) : Z := Index_from 0 s sub.

(** What "contains the substring" means. *)
Definition Contains (s sub : string) : Prop :=
  exists pre post, s = pre +:+ sub +:+ post.

(** Lower-casing of the ASCII letters; every other byte is kept. *)
Definition lower_ascii (a : ascii) : ascii :=
  let n := nat_of_ascii a in
  if (65 <=? n)%nat && (n <=? 90)%nat then ascii_of_nat (n + 32) else a.

Fixpoint lower (s : string) : string :=
  match s with
  | EmptyString => EmptyString
  | String a s' => String (lower_ascii a) (lower s')
  end.

Definition is_ascii (a : ascii) : bool := (nat_of_ascii a <? 128)%nat.

Fixpoint all_ascii (s : string) : bool :=
  match s with
  | EmptyString => true
  | String a s' => is_ascii a && all_ascii s'
  end.

(** Decimal digits. *)
Definition digit_char (d : Z) : ascii := ascii_of_nat (Z.to_nat (48 + d)).

Definition digit_of (a : ascii) : option Z :=
  let n := Z.of_nat (nat_of_ascii a) in
  if (48 <=? n) && (n <=? 57) then Some (n - 48) else None.

Fixpoint digits (fuel : nat) (n : Z) (acc : string) : string :=
  match fuel with
  | O => acc
  | S fuel' =>
      let acc' := String (digit_char (n mod 10)) acc in
      if n <? 10 then acc' else digits fuel' (n / 10) acc'
  end.

Definition FormatUint (n : Z) : string :=
  digits (S (Z.to_nat (Z.log2 n))) n EmptyString.

(** [strconv.Itoa]. *)
Definition Itoa (i : Z) : string :=
  if i <? 0 then "-" +:+ FormatUint (- i) else FormatUint i.

(** The result of [strconv.ParseUint] in base 10 and 64 bits. *)
Inductive UintResult :=
| UintOk (n : Z)
| UintSyntax
| UintRange.

(** The loop of [strconv.ParseUint]: the bytes are read from the left; a
    byte that is not a digit is a syntax error and a value that leaves
    [uint64] is a range error, whichever is met first. *)
Fixpoint parse_digits (s : string) (n : Z) : UintResult :=
  match s with
  | EmptyString => UintOk n
  | String a s' =>
      match digit_of a with
      | None => UintSyntax
      | Some d =>
          (* n >= cutoff: n*base overflows *)
          if (GoInt.modulus - 1) / 10 + 1 <=? n then UintRange
          (* n1 > maxVal: n+v overflows *)
          else if GoInt.modulus - 1 <? 10 * n + d then UintRange
          else parse_digits s' (10 * n + d)
      end
  end.

Inductive AtoiResult :=
| AtoiOk (v : Z)
| AtoiSyntax
| AtoiRange.

(** [strconv.Atoi], base 10: an optional sign, then one digit or more and
    nothing else; the value has to fit [int].  The short texts that Go
    converts without range checks cannot leave [int], so one definition
    serves for both of its paths. *)
Definition Atoi (s : string) : AtoiResult :=
  let '(neg, body) :=
    match s with
    | String "+" s' => (false, s')
    | String "-" s' => (true, s')
    | _ => (false, s)
    end in
  match body with
  | EmptyString => AtoiSyntax
  | _ =>
      match parse_digits body 0 with
      | UintSyntax => AtoiSyntax
      | UintRange => AtoiRange
      | UintOk v =>
          let v' := if neg then - v else v in
          if (GoInt.min_int <=? v') && (v' <=? GoInt.max_int)
          then AtoiOk v' else AtoiRange
      end
  end.

End GoString.

(** ** Errors

    The adapter looks at an error in two ways only: [errors.Cause(err)] is
    compared with one of libpod's sentinel errors, and [err.Error()] is
    searched for a piece of text.  An error value is therefore its root
    cause together with its rendered text. *)

Inductive root :=
| libpod_ErrCtrStopped
| libpod_ErrNoSuchCtr
| libpod_ErrDetach
| libpod_ErrInvalidArg
| foreign_root.

#[global] Instance root_eq_dec : EqDecision root.
Proof. solve_decision. Defined.

Record error := mkError { errors_Cause : root; Error : string }.

(** [errors.Wrapf(err, format, args...)] with the format already rendered
    to [msg]: the text is prefixed, the cause is kept. *)
Definition errors_Wrapf (err : error) (msg : string) : error :=
  {| errors_Cause := errors_Cause err; Error := msg +:+ ": " +:+ Error err |}.

(** ** Data of the collaborators *)

(** A container handle, as far as the adapter reads it: [c.ID()] and
    [c.StopTimeout()] are read from the handle's immutable configuration. *)
Record Container := mkContainer { ID : string; StopTimeout : Z }.

Record CreateConfig := { Detach : bool }.
Record RuntimeConfig := { TmpDir : string }.

Inductive os_File := os_Stdin | os_Stdout | os_Stderr.

Inductive Level :=
| PanicLevel | FatalLevel | ErrorLevel | WarnLevel | InfoLevel | DebugLevel | TraceLevel.

#[global] Instance Level_eq_dec : EqDecision Level.
Proof. solve_decision. Defined.

(** [cliconfig.PodmanCommand]: the parsed command line. *)
Record PodmanCommand := {
  Changed : string -> bool;            (* c.Flags().Changed(name) *)
  IsSet : string -> bool;              (* c.IsSet(name) *)
  Bool : string -> bool;               (* c.Bool(name) *)
  String_ : string -> string;          (* c.String(name) *)
  StringSlice : string -> list string; (* c.StringSlice(name) *)
  InputArgs : list string
}.

Record StopValues := {
  stop_cmd : PodmanCommand; stop_All : bool; stop_Latest : bool; stop_Timeout : Z
}.
Record KillValues := { kill_cmd : PodmanCommand; kill_All : bool; kill_Latest : bool }.
Record WaitValues := { wait_cmd : PodmanCommand; wait_Latest : bool }.
Record LogsValues := { logs_cmd : PodmanCommand; logs_Tail : Z; logs_Latest : bool }.
Record CreateValues := { create_cmd : PodmanCommand }.
Record RunValues := { run_cmd : PodmanCommand }.

(** [libpod.LogOptions] and [libpod.LogLine]. *)
Record LogOptions := {
  Details : bool; Follow : bool; Timestamps : bool;
  Multi : bool;
  WaitGroup : bool          (* whether the wait group has been installed *)
}.
Record LogLine := { CID : string; Msg : string }.

(** ** Calls to the collaborators

    One constructor per call the adapter makes, with the arguments it
    passes and the result it gets back. *)
Inductive Event :=
| EvGetContainersByContext (all latest : bool) (args : list string)
    (res : list Container * option error)
| EvStopWithTimeout (c : Container) (timeout : Z) (res : option error)
| EvKill (c : Container) (signal : Z) (res : option error)
| EvWaitWithInterval (c : Container) (interval : Z) (res : Z * option error)
| EvMakeChan (capacity : Z)
| EvRuntimeLog (ctrs : list Container) (options : LogOptions) (res : option error)
| EvRecv (lines : list LogLine)
| EvCreateContainer (res : option Container * option CreateConfig * option error)
| EvCGroupPath (c : Container) (res : string * option error)
| EvStart (c : Container) (recursive : bool) (res : option error)
| EvStartAttachCtr (ctr : option Container)
    (stdout stderr stdin : option os_File) (detachKeys : string)
    (sigProxy startContainer recursive : bool) (res : option error)
| EvWait (c : Container) (res : Z * option error)
| EvGetConfig (res : option RuntimeConfig * option error)
| EvRemoveContainer (ctr : option Container) (force removeVolume : bool)
    (res : option error)
| EvStat (path : string) (res : option error)
| EvReadFile (path : string) (res : string * option error)
| EvPrint (text : string)
| EvLog (level : Level) (msg : string).

(** The collaborators.  [engine_state] is everything outside the adapter
    that a call may read or change: the runtime store, the containers, the
    file system, the logger's level. *)
Class Env := {
  engine_state : Type;
  (* pkg/adapter/shortcuts *)
  shortcuts_GetContainersByContext :
    bool -> bool -> list string -> engine_state ->
    engine_state * (list Container * option error);
  (* libpod.Container *)
  ctr_StopWithTimeout : Container -> Z -> engine_state -> engine_state * option error;
  ctr_Kill : Container -> Z -> engine_state -> engine_state * option error;
  ctr_WaitWithInterval :
    Container -> Z -> engine_state -> engine_state * (Z * option error);
  ctr_CGroupPath : Container -> engine_state -> engine_state * (string * option error);
  ctr_Start : Container -> bool -> engine_state -> engine_state * option error;
  ctr_Wait : Container -> engine_state -> engine_state * (Z * option error);
  (* libpod.Runtime *)
  runtime_Log :
    list Container -> LogOptions -> engine_state -> engine_state * option error;
  runtime_GetConfig :
    engine_state -> engine_state * (option RuntimeConfig * option error);
  runtime_RemoveContainer :
    option Container -> bool -> bool -> engine_state -> engine_state * option error;
  (* the largest capacity for which [make] returns a channel of pointers;
     the runtime refuses a larger one as it refuses a negative one *)
  makechan_max : Z;
  (* the lines the log channel delivers before it is closed *)
  chan_recv_all : engine_state -> engine_state * list LogLine;
  LogLine_String : LogLine -> LogOptions -> string;
  (* cmd/podman/shared, and StartAttachCtr of this package *)
  shared_CreateContainer :
    PodmanCommand -> engine_state ->
    engine_state * (option Container * option CreateConfig * option error);
  StartAttachCtr :
    option Container -> option os_File -> option os_File -> option os_File ->
    string -> bool -> bool -> bool -> engine_state -> engine_state * option error;
  (* os, io/ioutil, logrus *)
  os_Stat : string -> engine_state -> engine_state * option error;
  ioutil_ReadFile : string -> engine_state -> engine_state * (string * option error);
  logrus_GetLevel : engine_state -> Level;
  (* pure library functions *)
  strings_ToLower : string -> string;
  strings_ToLower_ascii :
    forall s, GoString.all_ascii s = true -> strings_ToLower s = GoString.lower s;
  strconv_Quote : string -> string;
  filepath_Join : list string -> string;
  (* the text of libpod.ErrInvalidArg *)
  ErrInvalidArg_text : string
}.

(** ** The monad the adapter runs in: a world, and a result or a panic *)

Inductive outcome (A : Type) :=
| Ret (a : A)
| Panic.
Arguments Ret {A} a.
Arguments Panic {A}.

Section Adapter.

Context `{Env}.

Record World := mkWorld { eng : engine_state; trace : list Event }.

Definition M (A : Type) : Type := World -> outcome A * World.

Definition ret {A} (a : A) : M A := fun w => (Ret a, w).

Definition bind {A B} (m : M A) (k : A -> M B) : M B :=
  fun w => match m w with
           | (Ret a, w') => k a w'
           | (Panic, w') => (Panic, w')
           end.

#[local] Instance M_ret : MRet M := @ret.
#[local] Instance M_bind : MBind M := fun A B k m => bind m k.

Definition panic {A} : M A := fun w => (Panic, w).

(** A call to a collaborator: run it on the engine state, record it. *)
Definition call {A} (f : engine_state -> engine_state * A) (ev : A -> Event) : M A :=
  fun w => let '(s, a) := f (eng w) in
           (Ret a, {| eng := s; trace := trace w ++ [ev a] |}).

Definition emit (e : Event) : M unit :=
  fun w => (Ret tt, {| eng := eng w; trace := trace w ++ [e] |}).

(** Dereference of a pointer that may be nil. *)
Definition deref {A} (p : option A) : M A :=
  match p with
  | Some a => ret a
  | None => panic
  end.

Definition logrus_Debugf (msg : string) : M unit := emit (EvLog DebugLevel msg).
Definition logrus_Errorf (msg : string) : M unit := emit (EvLog ErrorLevel msg).
Definition fmt_Print (text : string) : M unit := emit (EvPrint text).
Definition GetLevel : M Level := fun w => (Ret (logrus_GetLevel (eng w)), w).

Definition GetContainersByContext (all latest : bool) (args : list string)
  : M (list Container * option error) :=
  call (shortcuts_GetContainersByContext all latest args)
       (EvGetContainersByContext all latest args).

Definition newline : string := String (ascii_of_nat 10) EmptyString.

(** ** StopContainers *)

(** The body of [for _, c := range ctrs] in [StopContainers]; [timeout] is
    the pointer of the same name, [None] while it is nil. *)
Fixpoint StopContainers_loop (ctrs : list Container) (timeout : option Z)
    (ok : list string) (failures : gmap string error)
  : M (list string * gmap string error) :=
  match ctrs with
  | [] => mret (ok, failures)
  | c :: rest =>
      t ← match timeout with
          | None =>
              let t := StopTimeout c in
              logrus_Debugf ("Set timeout to container " +:+ ID c +:+ " default ("
                             +:+ GoString.FormatUint t +:+ ")");;
              mret t
          | Some t => mret t
          end;
      err ← call (ctr_StopWithTimeout c t) (EvStopWithTimeout c t);
      match err with
      | None => StopContainers_loop rest (Some t) (ok ++ [ID c]) failures
      | Some e =>
          if decide (errors_Cause e = libpod_ErrCtrStopped) then
            logrus_Debugf ("Container " +:+ ID c +:+ " is already stopped");;
            StopContainers_loop rest (Some t) (ok ++ [ID c]) failures
          else
            StopContainers_loop rest (Some t) ok (<[ID c := e]> failures)
      end
  end.

Definition StopContainers (cli : StopValues)
  : M (list string * gmap string error * option error) :=
  let timeout :=
    if Changed (stop_cmd cli) "timeout" || Changed (stop_cmd cli) "time"
    then Some (GoInt.to_uint (stop_Timeout cli))
    else None in
  '(ctrs, err) ← GetContainersByContext (stop_All cli) (stop_Latest cli)
                   (InputArgs (stop_cmd cli));
  match err with
  | Some e => mret ([], ∅, Some e)
  | None =>
      '(ok, failures) ← StopContainers_loop ctrs timeout [] ∅;
      mret (ok, failures, None)
  end.

(** ** KillContainers *)

Fixpoint KillContainers_loop (ctrs : list Container) (signal : Z)
    (ok : list string) (failures : gmap string error)
  : M (list string * gmap string error) :=
  match ctrs with
  | [] => mret (ok, failures)
  | c :: rest =>
      err ← call (ctr_Kill c (GoInt.to_uint signal)) (EvKill c (GoInt.to_uint signal));
      match err with
      | None => KillContainers_loop rest signal (ok ++ [ID c]) failures
      | Some e => KillContainers_loop rest signal ok (<[ID c := e]> failures)
      end
  end.

Definition KillContainers (cli : KillValues) (signal : Z)
  : M (list string * gmap string error * option error) :=
  '(ctrs, err) ← GetContainersByContext (kill_All cli) (kill_Latest cli)
                   (InputArgs (kill_cmd cli));
  match err with
  | Some e => mret ([], ∅, Some e)
  | None =>
      '(ok, failures) ← KillContainers_loop ctrs signal [] ∅;
      mret (ok, failures, None)
  end.

(** ** WaitOnContainers *)

Fixpoint WaitOnContainers_loop (ctrs : list Container) (interval : Z)
    (ok : list string) (failures : gmap string error)
  : M (list string * gmap string error) :=
  match ctrs with
  | [] => mret (ok, failures)
  | c :: rest =>
      '(returnCode, err) ← call (ctr_WaitWithInterval c interval)
                             (EvWaitWithInterval c interval);
      match err with
      | None =>
          WaitOnContainers_loop rest interval (ok ++ [GoString.Itoa returnCode]) failures
      | Some e => WaitOnContainers_loop rest interval ok (<[ID c := e]> failures)
      end
  end.

Definition WaitOnContainers (cli : WaitValues) (interval : Z)
  : M (list string * gmap string error * option error) :=
  '(ctrs, err) ← GetContainersByContext false (wait_Latest cli)
                   (InputArgs (wait_cmd cli));
  match err with
  | Some e => mret ([], ∅, Some e)
  | None =>
      '(ok, failures) ← WaitOnContainers_loop ctrs interval [] ∅;
      (* the [err] returned here is the resolver's, nil on this path *)
      mret (ok, failures, err)
  end.

(** ** Log *)

(** [int(c.Tail)*len(c.InputArgs)+1], in [int] arithmetic. *)
Definition Log_capacity (c : LogsValues) : Z :=
  GoInt.add
    (GoInt.mul (GoInt.to_int (logs_Tail c))
               (Z.of_nat (length (InputArgs (logs_cmd c)))))
    1.

Fixpoint Log_print (lines : list LogLine) (options : LogOptions) : M unit :=
  match lines with
  | [] => mret tt
  | line :: rest =>
      fmt_Print (LogLine_String line options +:+ newline);;
      Log_print rest options
  end.

(** The producers run concurrently with the loop that prints; here the
    channel is the list of lines it delivers before it is closed.  [make]
    panics ("makechan: size out of range") on a negative capacity and on
    one beyond what the runtime can allocate. *)
Definition Log (c : LogsValues) (options : LogOptions) : M (option error) :=
  let options :=
    {| Details := Details options; Follow := Follow options;
       Timestamps := Timestamps options; Multi := Multi options;
       WaitGroup := true |} in
  let options :=
    if (1 <? length (InputArgs (logs_cmd c)))%nat
    then {| Details := Details options; Follow := Follow options;
            Timestamps := Timestamps options; Multi := true;
            WaitGroup := WaitGroup options |}
    else options in
  (if (Log_capacity c <? 0) || (makechan_max <? Log_capacity c) then panic
   else emit (EvMakeChan (Log_capacity c)));;
  '(containers, err) ← GetContainersByContext false (logs_Latest c)
                         (InputArgs (logs_cmd c));
  match err with
  | Some e => mret (Some e)
  | None =>
      err ← call (runtime_Log containers options) (EvRuntimeLog containers options);
      match err with
      | Some e => mret (Some e)
      | None =>
          lines ← call chan_recv_all EvRecv;
          Log_print lines options;;
          mret None
      end
  end.

(** ** CreateContainer *)

Definition CreateContainer (c : CreateValues) : M (string * option error) :=
  '(ctr, _, err) ← call (shared_CreateContainer (create_cmd c)) EvCreateContainer;
  ctr ← deref ctr;
  mret (ID ctr, err).

(** ** ReadExitFile *)

Definition ReadExitFile (runtimeTmp ctrID : string) : M (Z * option error) :=
  let exitFile := filepath_Join [runtimeTmp; "exits"; ctrID +:+ "-old"] in
  logrus_Debugf ("Attempting to read container " +:+ ctrID
                 +:+ " exit code from file " +:+ exitFile);;
  (* Check if it exists *)
  err ← call (os_Stat exitFile) (EvStat exitFile);
  match err with
  | Some e =>
      mret (0, Some (errors_Wrapf e ("error getting exit file for container " +:+ ctrID)))
  | None =>
      (* File exists, read it in and convert to int *)
      '(statusStr, err) ← call (ioutil_ReadFile exitFile) (EvReadFile exitFile);
      match err with
      | Some e =>
          mret (0, Some (errors_Wrapf e
                           ("error reading exit file for container " +:+ ctrID)))
      | None =>
          match GoString.Atoi statusStr with
          | GoString.AtoiOk exitCode => mret (exitCode, None)
          | bad =>
              let e := {| errors_Cause := foreign_root;
                          Error := "strconv.Atoi: parsing " +:+ strconv_Quote statusStr
                                   +:+ (match bad with
                                        | GoString.AtoiRange => ": value out of range"
                                        | _ => ": invalid syntax"
                                        end) |} in
              mret (0, Some (errors_Wrapf e
                               ("error parsing exit code for container " +:+ ctrID)))
          end
      end
  end.

(** ** Run *)

Record Streams := {
  outputStream : option os_File;
  errorStream : option os_File;
  inputStream : option os_File
}.

(** [for _, stream := range attachTo]: the streams selected, or the first
    name that is none of the three. *)
Fixpoint Run_attach_loop (attachTo : list string) (st : Streams) : string + Streams :=
  match attachTo with
  | [] => inr st
  | stream :: rest =>
      let name := strings_ToLower stream in
      if String.eqb name "stdout" then
        Run_attach_loop rest
          {| outputStream := Some os_Stdout; errorStream := errorStream st;
             inputStream := inputStream st |}
      else if String.eqb name "stderr" then
        Run_attach_loop rest
          {| outputStream := outputStream st; errorStream := Some os_Stderr;
             inputStream := inputStream st |}
      else if String.eqb name "stdin" then
        Run_attach_loop rest
          {| outputStream := outputStream st; errorStream := errorStream st;
             inputStream := Some os_Stdin |}
      else inl stream
  end.

(** The exit code of a start that failed. *)
Definition start_failure_code (err : error) : Z :=
  (* This means the command did not exist *)
  let exitCode := 127 in
  if GoString.Index (Error err) "permission denied" >? -1 then 126 else exitCode.

(** The block under [logrus.GetLevel() == logrus.DebugLevel]. *)
Definition Run_debug (ctr : option Container) : M unit :=
  lvl ← GetLevel;
  if decide (lvl = DebugLevel) then
    ctr ← deref ctr;
    '(cgroupPath, err) ← call (ctr_CGroupPath ctr) (EvCGroupPath ctr);
    match err with
    | None =>
        logrus_Debugf ("container " +:+ strconv_Quote (ID ctr)
                       +:+ " has CgroupParent " +:+ strconv_Quote cgroupPath)
    | Some _ => mret tt
    end
  else mret tt.

(** The choice of [outputStream], [errorStream] and [inputStream]: the
    streams to attach, or the stream name that is not valid. *)
Definition Run_select_streams (cmd : PodmanCommand) : string + Streams :=
  let st :=
    {| outputStream := Some os_Stdout; errorStream := Some os_Stderr;
       inputStream := Some os_Stdin |} in
  (* If -i is not set, clear stdin *)
  let st :=
    if negb (Bool cmd "interactive")
    then {| outputStream := outputStream st; errorStream := errorStream st;
            inputStream := None |}
    else st in
  (* If attach is set, clear stdin/stdout/stderr and only attach requested *)
  if IsSet cmd "attach" || IsSet cmd "a" then
    let st :=
      {| outputStream := None; errorStream := None;
         inputStream := if negb (Bool cmd "interactive") then None
                        else inputStream st |} in
    Run_attach_loop (StringSlice cmd "attach") st
  else inr st.

Definition Run (c : RunValues) (exitCode : Z) : M (Z * option error) :=
  let cmd := run_cmd c in
  '(ctr, createConfig, err) ← call (shared_CreateContainer cmd) EvCreateContainer;
  match err with
  | Some e => mret (exitCode, Some e)
  | None =>
  Run_debug ctr;;
  createConfig ← deref createConfig;
  (* Handle detached start *)
  if Detach createConfig then
    ctr ← deref ctr;
    err ← call (ctr_Start ctr (IsSet cmd "pod")) (EvStart ctr (IsSet cmd "pod"));
    match err with
    | Some e => mret (start_failure_code e, Some e)
    | None =>
        fmt_Print (ID ctr +:+ newline);;
        mret (0, None)
    end
  else
  match Run_select_streams cmd with
  | inl stream =>
      mret (exitCode,
            Some (errors_Wrapf
                    {| errors_Cause := libpod_ErrInvalidArg; Error := ErrInvalidArg_text |}
                    ("invalid stream " +:+ strconv_Quote stream
                     +:+ " for --attach - must be one of stdin, stdout, or stderr")))
  | inr st =>
  err ← call (StartAttachCtr ctr (outputStream st) (errorStream st) (inputStream st)
                (String_ cmd "detach-keys") (Bool cmd "sig-proxy") true (IsSet cmd "pod"))
             (EvStartAttachCtr ctr (outputStream st) (errorStream st) (inputStream st)
                (String_ cmd "detach-keys") (Bool cmd "sig-proxy") true (IsSet cmd "pod"));
  match err with
  | Some e =>
      (* We've manually detached from the container *)
      if decide (errors_Cause e = libpod_ErrDetach) then mret (0, None)
      else
        (if IsSet cmd "rm" then
           deleteError ← call (runtime_RemoveContainer ctr true false)
                           (EvRemoveContainer ctr true false);
           match deleteError with
           | Some _ =>
               ctr ← deref ctr;
               logrus_Errorf ("unable to remove container " +:+ ID ctr
                              +:+ " after failing to start and attach to it")
           | None => mret tt
           end
         else mret tt);;
        mret (start_failure_code e, Some e)
  | None =>
  ctr' ← deref ctr;
  '(ecode, err) ← call (ctr_Wait ctr') (EvWait ctr');
  let finish (exitCode : Z) : M (Z * option error) :=
    (if IsSet cmd "rm" then
       call (runtime_RemoveContainer ctr false true) (EvRemoveContainer ctr false true);;
       mret tt
     else mret tt);;
    mret (exitCode, None) in
  match err with
  | Some e =>
      if decide (errors_Cause e = libpod_ErrNoSuchCtr) then
        (* The container may have been removed. Go looking for an exit file *)
        '(config, err) ← call runtime_GetConfig EvGetConfig;
        match err with
        | Some e' => mret (exitCode, Some e')
        | None =>
            config ← deref config;
            '(ctrExitCode, err) ← ReadExitFile (TmpDir config) (ID ctr');
            match err with
            | Some e'' =>
                logrus_Errorf ("Cannot get exit code: " +:+ Error e'');;
                finish 127
            | None => finish ctrExitCode
            end
        end
      else finish exitCode
  | None => finish ecode
  end
  end
  end
  end.

(** Whether [--attach] names the stream [name], in any letter case. *)
Definition stream_named (name : string) (attachTo : list string) : bool :=
  existsb (fun stream => String.eqb (strings_ToLower stream) name) attachTo.

Definition attach_lists (c : RunValues) (name : string) : bool :=
  stream_named name (StringSlice (run_cmd c) "attach").

(** The file [ReadExitFile] reads. *)
Definition exitFile_path (runtimeTmp ctrID : string) : string :=
  filepath_Join [runtimeTmp; "exits"; ctrID +:+ "-old"].

End Adapter.

(** ** Reading a trace

    What a batch call did is read back from the calls it recorded: each
    per-container action, the container it ran on and its verdict. *)

Inductive verdict :=
| Succeeded (entry : string)   (* what is appended to the ok list *)
| Failed (e : error).          (* what is stored in the failures map *)

Definition stop_verdict (c : Container) (res : option error) : verdict :=
  match res with
  | None => Succeeded (ID c)
  | Some e =>
      if decide (errors_Cause e = libpod_ErrCtrStopped)
      then Succeeded (ID c) else Failed e
  end.

Definition kill_verdict (c : Container) (res : option error) : verdict :=
  match res with
  | None => Succeeded (ID c)
  | Some e => Failed e
  end.

Definition wait_verdict (res : Z * option error) : verdict :=
  match res with
  | (returnCode, None) => Succeeded (GoString.Itoa returnCode)
  | (_, Some e) => Failed e
  end.

Definition stop_call (ev : Event) : option (Container * verdict) :=
  match ev with
  | EvStopWithTimeout c _ res => Some (c, stop_verdict c res)
  | _ => None
  end.

Definition kill_call (ev : Event) : option (Container * verdict) :=
  match ev with
  | EvKill c _ res => Some (c, kill_verdict c res)
  | _ => None
  end.

Definition wait_call (ev : Event) : option (Container * verdict) :=
  match ev with
  | EvWaitWithInterval c _ res => Some (c, wait_verdict res)
  | _ => None
  end.


Definition wait_ok_entry (ev : Event) : option string :=
  match ev with
  | EvWaitWithInterval _ _ (returnCode, None) => Some (GoString.Itoa returnCode)
  | _ => None
  end.

(** The timeouts the stop calls of a trace were given, in order. *)
Definition stop_timeout (ev : Event) : option (Container * Z) :=
  match ev with
  | EvStopWithTimeout c t _ => Some (c, t)
  | _ => None
  end.

(** The signals the kill calls of a trace were given. *)
Definition kill_signal (ev : Event) : option Z :=
  match ev with
  | EvKill _ s _ => Some s
  | _ => None
  end.

Definition is_default_timeout_log (ev : Event) : bool :=
  match ev with
  | EvLog DebugLevel msg => GoString.HasPrefix msg "Set timeout to container "
  | _ => false
  end.

Definition default_timeout_logs (evs : list Event) : nat :=
  length (List.filter is_default_timeout_log evs).

Definition batch_ok (calls : list (Container * verdict)) : list string :=
  omap (fun cv => match snd cv with
                  | Succeeded s => Some s
                  | Failed _ => None
                  end) calls.

Definition batch_failures (calls : list (Container * verdict))
    (init : gmap string error) : gmap string error :=
  foldl (fun m cv => match snd cv with
                     | Failed e => <[ID (fst cv) := e]> m
                     | Succeeded _ => m
                     end) init calls.


(** The exit record at [path] could not be recovered: the file is not
    there, or cannot be read, or does not hold an integer. *)
Definition recovery_failed (path : string) (evs : list Event) : Prop :=
  (∃ e, EvStat path (Some e) ∈ evs)
  ∨ (∃ content e, EvReadFile path (content, Some e) ∈ evs)
  ∨ (∃ content, EvReadFile path (content, None) ∈ evs
                ∧ ∀ v, GoString.Atoi content ≠ GoString.AtoiOk v).

(** The events the debug block of [Run] can add. *)
Definition is_debug_event (ev : Event) : bool :=
  match ev with
  | EvCGroupPath _ _ | EvLog DebugLevel _ => true
  | _ => false
  end.

(** Calls of a given kind in a trace. *)
Definition is_start_attach (ev : Event) : bool :=
  match ev with EvStartAttachCtr _ _ _ _ _ _ _ _ _ => true | _ => false end.
Definition is_wait (ev : Event) : bool :=
  match ev with EvWait _ _ => true | _ => false end.
Definition is_wait_with_interval (ev : Event) : bool :=
  match ev with EvWaitWithInterval _ _ _ => true | _ => false end.
Definition is_print (ev : Event) : bool :=
  match ev with EvPrint _ => true | _ => false end.
Definition is_file_access (ev : Event) : bool :=
  match ev with EvStat _ _ | EvReadFile _ _ => true | _ => false end.
Definition is_error_log (ev : Event) : bool :=
  match ev with EvLog ErrorLevel _ => true | _ => false end.

(** ** A scripted engine

    An instance of the collaborators whose answers are read from a script;
    the concrete runs below are evaluated on it. *)

Module Toy.

Record script := {
  resolve : list Container * option error;
  stop : Container -> Z -> option error;
  kill : Container -> Z -> option error;
  wait_interval : Container -> Z * option error;
  create : option Container * option CreateConfig * option error;
  start : option error;
  attach : option error;
  wait : Z * option error;
  config : option RuntimeConfig * option error;
  stat : string -> option error;
  read : string -> string * option error;
  level : Level
}.

Definition quote : string := String (ascii_of_nat 34) EmptyString.

#[global] Instance env : Env := {|
  engine_state := script;
  shortcuts_GetContainersByContext := fun _ _ _ s => (s, resolve s);
  ctr_StopWithTimeout := fun c t s => (s, stop s c t);
  ctr_Kill := fun c sig s => (s, kill s c sig);
  ctr_WaitWithInterval := fun c _ s => (s, wait_interval s c);
  ctr_CGroupPath := fun c s => (s, ("/libpod_parent/" +:+ ID c, None));
  ctr_Start := fun _ _ s => (s, start s);
  ctr_Wait := fun _ s => (s, wait s);
  runtime_Log := fun _ _ s => (s, None);
  runtime_GetConfig := fun s => (s, config s);
  runtime_RemoveContainer := fun _ _ _ s => (s, None);
  (* linux/amd64: 2^48 bytes less the channel header, in 8-byte pointers *)
  makechan_max := 2 ^ 45 - 12;
  chan_recv_all := fun s => (s, []);
  LogLine_String := fun l _ => Msg l;
  shared_CreateContainer := fun _ s => (s, create s);
  StartAttachCtr := fun _ _ _ _ _ _ _ _ s => (s, attach s);
  os_Stat := fun p s => (s, stat s p);
  ioutil_ReadFile := fun p s => (s, read s p);
  logrus_GetLevel := level;
  strings_ToLower := GoString.lower;
  strings_ToLower_ascii := fun s _ => eq_refl;
  strconv_Quote := fun s => quote +:+ s +:+ quote;
  filepath_Join := String.concat "/";
  ErrInvalidArg_text := "invalid argument"
|}.

Definition no_flags : PodmanCommand := {|
  Changed := fun _ => false; IsSet := fun _ => false; Bool := fun _ => false;
  String_ := fun _ => ""; StringSlice := fun _ => []; InputArgs := []
|}.

Definition with_args (args : list string) : PodmanCommand := {|
  Changed := fun _ => false; IsSet := fun _ => false; Bool := fun _ => false;
  String_ := fun _ => ""; StringSlice := fun _ => []; InputArgs := args
|}.

(** [podman run] with the flags in [set] given, [-i] as [interactive] and
    [--attach] listing [attachTo]. *)
Definition run_flags (set : list string) (interactive : bool)
    (attachTo : list string) : RunValues := {|
  run_cmd := {|
    Changed := fun n => bool_decide (n ∈ set);
    IsSet := fun n => bool_decide (n ∈ set);
    Bool := fun n => if String.eqb n "interactive" then interactive else false;
    String_ := fun _ => "";
    StringSlice := fun n => if String.eqb n "attach" then attachTo else [];
    InputArgs := []
  |}
|}.

Definition ErrCtrStopped : error := mkError libpod_ErrCtrStopped "container is stopped".
Definition ErrNoSuchCtr : error := mkError libpod_ErrNoSuchCtr "no such container".
Definition ErrDetach : error := mkError libpod_ErrDetach "detached from container".
Definition EPERM : error :=
  mkError foreign_root "container_linux.go: starting container process caused: permission denied".
Definition ENOENT : error := mkError foreign_root "no such file or directory".
Definition ErrRuntimeStopped : error := mkError foreign_root "runtime has already been stopped".

Definition c1 : Container := mkContainer "c1" 10.
Definition c2 : Container := mkContainer "c2" 30.
Definition c3 : Container := mkContainer "c3" 5.

(** A script for the batch calls. *)
Definition batch (ctrs : list Container) (stop : Container -> Z -> option error)
    (kill : Container -> Z -> option error)
    (wait_interval : Container -> Z * option error) : script := {|
  resolve := (ctrs, None);
  stop := stop; kill := kill; wait_interval := wait_interval;
  create := (None, None, Some ENOENT);
  start := None; attach := None; wait := (0, None);
  config := (Some {| TmpDir := "/run/libpod" |}, None);
  stat := fun _ => Some ENOENT; read := fun _ => ("", Some ENOENT);
  level := InfoLevel
|}.

Fixpoint file_content (files : list (string * string)) (p : string) : option string :=
  match files with
  | [] => None
  | (q, content) :: rest => if String.eqb p q then Some content else file_content rest p
  end.

(** A script for one [podman run]. *)
Definition running (detach : bool) (start attach : option error)
    (wait : Z * option error) (config : option RuntimeConfig * option error)
    (files : list (string * string)) : script := {|
  resolve := ([], None);
  stop := fun _ _ => None; kill := fun _ _ => None;
  wait_interval := fun _ => (0, None);
  create := (Some c1, Some {| Detach := detach |}, None);
  start := start; attach := attach; wait := wait; config := config;
  stat := fun p => match file_content files p with
                   | Some _ => None
                   | None => Some ENOENT
                   end;
  read := fun p => match file_content files p with
                   | Some content => (content, None)
                   | None => ("", Some ENOENT)
                   end;
  level := InfoLevel
|}.

Definition world (s : script) : World := {| eng := s; trace := [] |}.

(** Three containers: c1 stops, c2 is already stopped, c3 cannot be
    stopped; c3 cannot be signalled; c1 and c2 exit with 0 and 137 and the
    wait on c3 fails. *)
Definition three : script :=
  batch [c1; c2; c3]
    (fun c _ => if String.eqb (ID c) "c2" then Some ErrCtrStopped
                else if String.eqb (ID c) "c3" then Some ENOENT else None)
    (fun c _ => if String.eqb (ID c) "c3" then Some ErrNoSuchCtr else None)
    (fun c => if String.eqb (ID c) "c1" then (0, None)
              else if String.eqb (ID c) "c2" then (137, None)
              else (0, Some ErrNoSuchCtr)).

Definition stop_three : StopValues :=
  {| stop_cmd := with_args ["c1"; "c2"; "c3"]; stop_All := false;
     stop_Latest := false; stop_Timeout := 0 |}.
Definition kill_three : KillValues :=
  {| kill_cmd := with_args ["c1"; "c2"; "c3"]; kill_All := false;
     kill_Latest := false |}.
Definition wait_three : WaitValues :=
  {| wait_cmd := with_args ["c1"; "c2"; "c3"]; wait_Latest := false |}.

(** One container whose wait succeeds with exit code 0. *)
Definition one : script :=
  batch [c1] (fun _ _ => None) (fun _ _ => None) (fun _ => (0, None)).
Definition wait_one : WaitValues :=
  {| wait_cmd := with_args ["c1"]; wait_Latest := false |}.

(** [podman logs --tail 10 c1 c2 c3]. *)
Definition logs_three : LogsValues :=
  {| logs_cmd := with_args ["c1"; "c2"; "c3"]; logs_Tail := 10; logs_Latest := false |}.
Definition log_options : LogOptions :=
  {| Details := false; Follow := false; Timestamps := false; Multi := false;
     WaitGroup := false |}.

(** A creation that fails and hands back no handle, and one that fails
    and hands back a handle all the same. *)
Definition create_fails (ctr : option Container) : script := {|
  resolve := ([], None);
  stop := fun _ _ => None; kill := fun _ _ => None;
  wait_interval := fun _ => (0, None);
  create := (ctr, None, Some ENOENT);
  start := None; attach := None; wait := (0, None);
  config := (None, Some ErrRuntimeStopped);
  stat := fun _ => Some ENOENT; read := fun _ => ("", Some ENOENT);
  level := InfoLevel
|}.
Definition create_values : CreateValues := {| create_cmd := no_flags |}.

(** Runs: detached; a start refused for lack of permission; attached to
    stdout only; attached to stdin only without -i; a container that is
    gone when it is waited for, with its exit file, without it, and with
    a runtime that gives no configuration. *)
Definition tmp : option RuntimeConfig * option error :=
  (Some {| TmpDir := "/run/libpod" |}, None).
Definition run_detached : script := running true None None (0, None) tmp [].
Definition run_eperm : script := running false None (Some EPERM) (0, None) tmp [].
Definition run_attached : script := running false None None (3, None) tmp [].
Definition run_gone_42 : script :=
  running false None None (0, Some ErrNoSuchCtr) tmp
    [("/run/libpod/exits/c1-old", "42")].
Definition run_gone_no_file : script :=
  running false None None (0, Some ErrNoSuchCtr) tmp [].
Definition run_gone_no_config : script :=
  running false None None (0, Some ErrNoSuchCtr) (None, Some ErrRuntimeStopped)
    [("/run/libpod/exits/c1-old", "42")].

End Toy.

(** ** Five sentences of the specification, as they are worded

    Each is refuted below on a scripted engine; the statement that holds
    in its place follows it. *)


(** "If the recovery fails for any reason, Run returns an exit code without
    aborting", once the wait has failed with no such container. *)
Definition vanished_container_never_aborts : Prop :=
  ∀ (E : Env) c exitCode w0 res w' evs ctr code e,
    Run c exitCode w0 = (res, w') →
    trace w' = trace w0 ++ evs →
    EvWait ctr (code, Some e) ∈ evs →
    errors_Cause e = libpod_ErrNoSuchCtr →
    ∃ code', res = Ret (code', None).

(** "With an explicit attach list, stdin participates only if it is listed
    and interactive mode is set." *)
Definition stdin_needs_listing_and_interactive : Prop :=
  ∀ (E : Env) c exitCode w0 res w' evs ctr out err inp keys sig start rec r,
    Run c exitCode w0 = (res, w') →
    trace w' = trace w0 ++ evs →
    IsSet (run_cmd c) "attach" || IsSet (run_cmd c) "a" = true →
    EvStartAttachCtr ctr out err inp keys sig start rec r ∈ evs →
    is_Some inp →
    attach_lists c "stdin" = true ∧ Bool (run_cmd c) "interactive" = true.

(** "A container whose stop fails because it is already stopped is appended
    to okIDs and is never recorded in the failures map." *)
Definition stopped_container_never_in_failures : Prop :=
  ∀ (E : Env) cli w ok failures err w' evs c t e,
    StopContainers cli w = (Ret (ok, failures, err), w') →
    trace w' = trace w ++ evs →
    EvStopWithTimeout c t (Some e) ∈ evs →
    errors_Cause e = libpod_ErrCtrStopped →
    ID c ∈ ok ∧ failures !! ID c = None.


(** ** The entry of the wait action *)

Section WaitAction.

Context `{Env}.

(** Modelled from the spec: the entry of the wait action, which checks the
    selection request before anything is resolved.  Missing from src/: the
    command line layer that owns the selection flags; [WaitOnContainers]
    has no input that carries an all selection and hands the literal false
    to the resolver.  The spec has the selection request as "one of
    explicit id/name list, all-containers flag, latest-container flag"
    (§3), says of wait that "explicit all selection is disallowed
    (selection must be explicit ids or latest)" (§4.2), that the batch
    error is non-nil when "a required input was malformed before any
    per-container action ran" (§4.2), and that a wait "with selection all
    is rejected before any container is touched; no partial side effects
    occur" (§8).  [allFlag] is the all-containers flag of the request,
    whose latest flag and ids are in [cli]; [rejection] is the error of the
    rejection, which the spec does not name.  A request that passes the
    check goes to [WaitOnContainers]. *)
Definition wait_action (allFlag : bool) (cli : WaitValues) (interval : Z)
    (rejection : error) : M (list string * gmap string error * option error) :=
  if allFlag then ret ([], ∅, Some rejection)
  else WaitOnContainers cli interval.

End WaitAction.

(** * The rest of the adapter *)

(** ** More readings of a trace *)

(** What a stop call adds to the ok list: the id, when the call returned
    nil or an error whose cause is ErrCtrStopped. *)
Definition stop_ok_entry (ev : Event) : option string :=
  match ev with
  | EvStopWithTimeout c _ None => Some (ID c)
  | EvStopWithTimeout c _ (Some e) =>
      if decide (errors_Cause e = libpod_ErrCtrStopped) then Some (ID c) else None
  | _ => None
  end.

Definition is_remove (ev : Event) : bool :=
  match ev with EvRemoveContainer _ _ _ _ => true | _ => false end.
Definition is_get_config (ev : Event) : bool :=
  match ev with EvGetConfig _ => true | _ => false end.
Definition is_start_call (ev : Event) : bool :=
  match ev with EvStart _ _ _ | EvStartAttachCtr _ _ _ _ _ _ _ _ _ => true | _ => false end.

(** ** Names used by the statements on [Run] and [Log] *)

Section AdapterNames.
Context `{Env}.

(** A name that [--attach] accepts: one of the three streams, in any
    letter case. *)
Definition valid_stream (stream : string) : bool :=
  String.eqb (strings_ToLower stream) "stdout"
  || String.eqb (strings_ToLower stream) "stderr"
  || String.eqb (strings_ToLower stream) "stdin".

End AdapterNames.

(** The exit code a wait call that succeeded returned. *)
Definition wait_code (ev : Event) : option Z :=
  match ev with
  | EvWaitWithInterval _ _ (returnCode, None) => Some returnCode
  | _ => None
  end.

(** Every wait call of a trace returned a code in the range of [int]. *)
Definition wait_codes_in_range (evs : list Event) : Prop :=
  ∀ c t code e, EvWaitWithInterval c t (code, e) ∈ evs →
                GoInt.min_int <= code <= GoInt.max_int.

Definition is_recv (ev : Event) : bool :=
  match ev with EvRecv _ => true | _ => false end.
Definition is_runtime_log (ev : Event) : bool :=
  match ev with EvRuntimeLog _ _ _ => true | _ => false end.

Section AdapterLog.
Context `{Env}.

(** What [Log] prints for one line. *)
Definition Log_line (options : LogOptions) (line : LogLine) : Event :=
  EvPrint (LogLine_String line options +:+ newline).

(** The options [Log] hands to the runtime. *)
Definition Log_options (c : LogsValues) (options : LogOptions) : LogOptions :=
  {| Details := Details options; Follow := Follow options;
     Timestamps := Timestamps options;
     Multi := Multi options || (1 <? length (InputArgs (logs_cmd c)))%nat;
     WaitGroup := true |}.

End AdapterLog.

(** ** The wrappers around the runtime's lookups *)

(** The adapter's [Container]: a struct that embeds a [*libpod.Container],
    which may be nil. *)
Record AdapterContainer := { libpod_Container : option Container }.

(** The three lookups of [libpod.Runtime] the wrappers call. *)
Class RuntimeLookup `{Env} := {
  runtime_GetLatestContainer :
    engine_state -> engine_state * (option Container * option error);
  runtime_GetAllContainers :
    engine_state -> engine_state * (list Container * option error);
  runtime_LookupContainer :
    string -> engine_state -> engine_state * (option Container * option error)
}.

Section Wrappers.

Context `{RuntimeLookup}.

(** [GetLatestContainer]: the wrapper is allocated before the call and
    returned whatever the call says. *)
Definition GetLatestContainer (s : engine_state)
  : engine_state * (option AdapterContainer * option error) :=
  let '(s', (c, err)) := runtime_GetLatestContainer s in
  (s', (Some {| libpod_Container := c |}, err)).

(** [for _, c := range allContainers] in [GetAllContainers]. *)
Fixpoint GetAllContainers_loop (allContainers : list Container)
    (containers : list AdapterContainer) : list AdapterContainer :=
  match allContainers with
  | [] => containers
  | c :: rest =>
      GetAllContainers_loop rest (containers ++ [{| libpod_Container := Some c |}])
  end.

Definition GetAllContainers (s : engine_state)
  : engine_state * (list AdapterContainer * option error) :=
  let '(s', (allContainers, err)) := runtime_GetAllContainers s in
  match err with
  | Some e => (s', ([], Some e))
  | None => (s', (GetAllContainers_loop allContainers [], None))
  end.

Definition LookupContainer (idOrName : string) (s : engine_state)
  : engine_state * (option AdapterContainer * option error) :=
  let '(s', (ctr, err)) := runtime_LookupContainer idOrName s in
  match err with
  | Some e => (s', (None, Some e))
  | None => (s', (Some {| libpod_Container := ctr |}, None))
  end.

End Wrappers.

(** ** More scripts for the scripted engine *)

Module Scripts.

Import Toy.

(** The lookups, answered from the script's resolved containers. *)
Fixpoint find_ctr (idOrName : string) (ctrs : list Container) : option Container :=
  match ctrs with
  | [] => None
  | c :: rest => if String.eqb (ID c) idOrName then Some c else find_ctr idOrName rest
  end.

#[global] Instance lookup : RuntimeLookup := {|
  runtime_GetLatestContainer := fun s =>
    (s, match fst (resolve s) with
        | c :: _ => (Some c, snd (resolve s))
        | [] => (None, Some ErrNoSuchCtr)
        end);
  runtime_GetAllContainers := fun s => (s, resolve s);
  runtime_LookupContainer := fun idOrName s =>
    (s, match find_ctr idOrName (fst (resolve s)) with
        | Some c => (Some c, None)
        | None => (None, Some ErrNoSuchCtr)
        end)
|}.

(** A runtime that cannot resolve anything. *)
Definition unresolved : script := {|
  resolve := ([], Some ErrNoSuchCtr);
  stop := fun _ _ => None; kill := fun _ _ => None;
  wait_interval := fun _ => (0, None);
  create := (None, None, Some ENOENT);
  start := None; attach := None; wait := (0, None);
  config := (None, Some ErrRuntimeStopped);
  stat := fun _ => Some ENOENT; read := fun _ => ("", Some ENOENT);
  level := InfoLevel
|}.

(** The container c1 named twice; every stop of it fails. *)
Definition twice : script :=
  batch [c1; c1] (fun _ _ => Some ENOENT) (fun _ _ => None) (fun _ => (0, None)).

(** [podman stop c1 c1]. *)
Definition stop_twice : StopValues :=
  {| stop_cmd := with_args ["c1"; "c1"]; stop_All := false;
     stop_Latest := false; stop_Timeout := 0 |}.

(** [podman stop --timeout 3 c1 c2 c3]. *)
Definition stop_timeout_3 : StopValues :=
  {| stop_cmd := {| Changed := fun n => String.eqb n "timeout";
                    IsSet := fun n => String.eqb n "timeout";
                    Bool := fun _ => false; String_ := fun _ => "";
                    StringSlice := fun _ => []; InputArgs := ["c1"; "c2"; "c3"] |};
     stop_All := false; stop_Latest := false; stop_Timeout := 3 |}.

(** The error of a request that is refused for its selection. *)
Definition ErrInvalidArg : error := mkError libpod_ErrInvalidArg "invalid argument".

(** [podman logs --latest --tail 10]. *)
Definition logs_latest_10 : LogsValues :=
  {| logs_cmd := no_flags; logs_Tail := 10; logs_Latest := true |}.

(** [podman logs --latest --tail 9223372036854775808]. *)
Definition logs_latest : LogsValues :=
  {| logs_cmd := no_flags; logs_Tail := 2 ^ 63; logs_Latest := true |}.

(** An engine whose creation gives neither a handle nor an error. *)
Definition create_nil : script := {|
  resolve := ([], None);
  stop := fun _ _ => None; kill := fun _ _ => None;
  wait_interval := fun _ => (0, None);
  create := (None, Some {| Detach := true |}, None);
  start := None; attach := None; wait := (0, None);
  config := tmp;
  stat := fun _ => Some ENOENT; read := fun _ => ("", Some ENOENT);
  level := InfoLevel
|}.

(** Runs: the user detaches; the wait fails for another reason than a
    missing container; the exit file ends with a newline. *)
Definition run_user_detach : script :=
  running false None (Some ErrDetach) (0, None) tmp [].
Definition run_wait_fails : script :=
  running false None None (0, Some ENOENT) tmp [].
Definition run_gone_newline : script :=
  running false None None (0, Some ErrNoSuchCtr) tmp
    [("/run/libpod/exits/c1-old", "42" +:+ newline)].

End Scripts.

(** ** An engine whose stop calls answer from a list

    Every name resolves to the container of that id, and the stop calls
    are answered one after the other from the list that is the state of
    the engine: a second stop of a container need not fare as the first
    did. *)

Module Replay.

Definition env : Env := {|
  engine_state := list (option error);
  shortcuts_GetContainersByContext := fun _ _ args s =>
    (s, ((fun name => mkContainer name 10) <$> args, None));
  ctr_StopWithTimeout := fun _ _ s =>
    match s with
    | answer :: rest => (rest, answer)
    | [] => (s, None)
    end;
  ctr_Kill := fun _ _ s => (s, None);
  ctr_WaitWithInterval := fun _ _ s => (s, (0, None));
  ctr_CGroupPath := fun c s => (s, ("/libpod_parent/" +:+ ID c, None));
  ctr_Start := fun _ _ s => (s, None);
  ctr_Wait := fun _ s => (s, (0, None));
  runtime_Log := fun _ _ s => (s, None);
  runtime_GetConfig := fun s => (s, (None, Some Toy.ErrRuntimeStopped));
  runtime_RemoveContainer := fun _ _ _ s => (s, None);
  makechan_max := 2 ^ 45 - 12;
  chan_recv_all := fun s => (s, []);
  LogLine_String := fun l _ => Msg l;
  shared_CreateContainer := fun _ s => (s, (None, None, Some Toy.ENOENT));
  StartAttachCtr := fun _ _ _ _ _ _ _ _ s => (s, None);
  os_Stat := fun _ s => (s, Some Toy.ENOENT);
  ioutil_ReadFile := fun _ s => (s, ("", Some Toy.ENOENT));
  logrus_GetLevel := fun _ => InfoLevel;
  strings_ToLower := GoString.lower;
  strings_ToLower_ascii := fun s _ => eq_refl;
  strconv_Quote := fun s => Toy.quote +:+ s +:+ Toy.quote;
  filepath_Join := String.concat "/";
  ErrInvalidArg_text := "invalid argument"
|}.

(** [podman stop c1 c1] where the first stop of c1 fails and the second
    finds it stopped. *)
Definition fails_then_stopped : @World env :=
  @mkWorld env [Some Toy.ENOENT; Some Toy.ErrCtrStopped] [].

End Replay.

(** * Proofs *)

(** One step of the monad: unfold the operations and compute. *)
Ltac mstep :=
  unfold GetContainersByContext, logrus_Debugf, logrus_Errorf, fmt_Print, GetLevel,
    deref, panic, mbind, M_bind, mret, M_ret, bind, ret, call, emit in *;
  simpl in *.

(** Case analysis on every answer a collaborator gives; the debug block of
    [Run] is kept whole. *)
Ltac run_cases_in Hrun :=
  repeat (match type of Hrun with
          | context [match ?x with _ => _ end] =>
              lazymatch x with
              | context [match _ with _ => _ end] => fail
              | _ => destruct x eqn:?
              end
          end; simpl in Hrun).

Ltac run_cases Hrun := unfold Run, ReadExitFile in Hrun; mstep; run_cases_in Hrun.

(** Inversion of the membership of an event in an explicit list, in which
    the events of the debug block are a segment known by [Forall] only. *)
Ltac elem_debug H :=
  match goal with
  | Hall : Forall _ ?l |- _ =>
      match type of H with
      | _ ∈ l => apply (proj1 (Forall_forall _ _) Hall) in H; discriminate H
      end
  end.

Ltac elem_inv H :=
  first [ apply elem_of_nil in H; destruct H
        | elem_debug H
        | apply elem_of_cons in H as [H|H];
          [ first [discriminate H | inversion H; subst; clear H] | elem_inv H ]
        | apply elem_of_app in H as [H|H]; [ elem_debug H | elem_inv H ] ].

(** An event is in such a list. *)
Ltac elem_find :=
  solve [repeat first [ apply list_elem_of_here | apply list_elem_of_further
                      | apply elem_of_app; right ]].

(** At a leaf of [run_cases]: name the result and the events added;
    [debug_spec] is the lemma that describes the debug block. *)
Ltac run_leaf_with debug_spec Hrun Htrace :=
  simplify_eq;
  try match goal with
      | Hdbg : Run_debug _ _ = _ |- _ =>
          let devs := fresh "devs" in
          let Hdevs := fresh "Hdevs" in
          let Hall := fresh "Hall" in
          apply debug_spec in Hdbg as (devs & Hdevs & Hall);
          simpl in Hdevs; simpl in Htrace; rewrite Hdevs in Htrace
      end;
  simpl in Htrace; rewrite <- ?app_assoc in Htrace;
  apply app_inv_head in Htrace; simpl in Htrace; subst.

(** ** The batch executor *)

(** Filters over a list of events in which the events of the debug block
    are a segment known by [Forall] only; [filter_debug] is the lemma that
    filters that segment. *)
Ltac filter_events_with filter_debug :=
  simpl; rewrite ?List.filter_app; simpl;
  repeat match goal with
         | Hall : Forall _ ?l |- context [List.filter ?P ?l] =>
             rewrite (filter_debug P l Hall)
               by (intros [] ?; try done; by match goal with l : Level |- _ => destruct l end)
         end;
  simpl.

(** [run_cases] and [run_leaf_with] in one step; [debug_panic] is the lemma
    that says when the debug block panics. *)
Ltac run_exec_with debug_spec debug_panic Hrun Htrace :=
  run_cases Hrun;
  try match goal with
      | Hdbg : Run_debug _ _ = (Panic, _) |- _ =>
          pose proof (debug_panic _ _ _ Hdbg)
      end;
  run_leaf_with debug_spec Hrun Htrace.

(** A list written with [::] and [++] ends with a given element. *)
Ltac ends_with ends_here ends_cons ends_app :=
  solve [repeat first [eapply ends_here | eapply ends_app | eapply ends_cons]].

Section BatchProofs.

Context `{Env}.

Lemma batch_ok_app calls1 calls2 :
  batch_ok (calls1 ++ calls2) = batch_ok calls1 ++ batch_ok calls2.
Proof. apply omap_app. Qed.

Lemma batch_failures_app calls1 calls2 init :
  batch_failures (calls1 ++ calls2) init = batch_failures calls2 (batch_failures calls1 init).
Proof. apply foldl_app. Qed.

Lemma default_timeout_logs_app evs1 evs2 :
  default_timeout_logs (evs1 ++ evs2) =
  (default_timeout_logs evs1 + default_timeout_logs evs2)%nat.
Proof. unfold default_timeout_logs. by rewrite List.filter_app, length_app. Qed.

Lemma StopContainers_loop_spec ctrs :
  ∀ timeout ok failures w,
  ∃ evs s,
    StopContainers_loop ctrs timeout ok failures w =
      (Ret (ok ++ batch_ok (omap stop_call evs),
            batch_failures (omap stop_call evs) failures),
       {| eng := s; trace := trace w ++ evs |})
    ∧ (omap stop_timeout evs =
       map (fun c => (c, match timeout with
                         | Some t => t
                         | None => match ctrs with c1 :: _ => StopTimeout c1 | [] => 0 end
                         end)) ctrs)
    ∧ default_timeout_logs evs =
       match timeout, ctrs with None, _ :: _ => 1%nat | _, _ => 0%nat end.
Proof.
  induction ctrs as [|c rest IH]; intros timeout ok failures w.
  - exists [], (eng w). simpl. rewrite !app_nil_r. destruct w, timeout; done.
  - set (t := match timeout with Some t => t | None => StopTimeout c end).
    set (pre := match timeout with
                | Some _ => []
                | None => [EvLog DebugLevel
                             ("Set timeout to container " +:+ ID c +:+ " default ("
                              +:+ GoString.FormatUint (StopTimeout c) +:+ ")")]
                end).
    destruct (ctr_StopWithTimeout c t (eng w)) as [s r] eqn:Hstop.
    set (post := match r with
                 | Some e => if decide (errors_Cause e = libpod_ErrCtrStopped)
                             then [EvLog DebugLevel ("Container " +:+ ID c +:+ " is already stopped")]
                             else []
                 | None => []
                 end).
    set (w1 := {| eng := s; trace := trace w ++ pre ++ [EvStopWithTimeout c t r] ++ post |}).
    destruct (IH (Some t)
                (match stop_verdict c r with Succeeded x => ok ++ [x] | Failed _ => ok end)
                (match stop_verdict c r with Succeeded _ => failures | Failed e => <[ID c := e]> failures end)
                w1) as (evs & s' & Hrun & Htm & Hlog).
    exists (pre ++ [EvStopWithTimeout c t r] ++ post ++ evs), s'.
    assert (Hpre : omap stop_call pre = [] ∧ omap stop_timeout pre = []
                   ∧ default_timeout_logs pre = match timeout with None => 1%nat | _ => 0%nat end).
    { subst pre. destruct timeout; repeat split; reflexivity. }
    assert (Hpost : omap stop_call post = [] ∧ omap stop_timeout post = []
                    ∧ default_timeout_logs post = 0%nat).
    { subst post. destruct r as [e|]; [destruct (decide _)|]; repeat split; reflexivity. }
    destruct Hpre as (Hp1 & Hp2 & Hp3), Hpost as (Hq1 & Hq2 & Hq3).
    split; [|split].
    + rewrite !omap_app, Hp1, Hq1. simpl.
      transitivity (StopContainers_loop rest (Some t)
                (match stop_verdict c r with Succeeded x => ok ++ [x] | Failed _ => ok end)
                (match stop_verdict c r with Succeeded _ => failures | Failed e => <[ID c := e]> failures end)
                w1).
      * subst w1 pre post t. simpl. mstep. unfold stop_verdict.
        destruct timeout as [t|]; simpl; rewrite Hstop;
          (destruct r as [e|]; [destruct (decide _)|]); simpl;
          rewrite <- ?app_assoc; simpl; try rewrite app_nil_r; reflexivity.
      * rewrite Hrun. subst w1. simpl. rewrite <- !app_assoc. simpl.
        destruct (stop_verdict c r); simpl; rewrite <- ?app_assoc; reflexivity.
    + rewrite !omap_app, Hp2, Hq2. simpl. rewrite Htm. subst t. reflexivity.
    + rewrite !default_timeout_logs_app, Hp3, Hq3, Hlog.
      unfold default_timeout_logs; simpl. destruct timeout; reflexivity.
Qed.

Lemma KillContainers_loop_spec ctrs signal :
  ∀ ok failures w,
  ∃ evs s,
    KillContainers_loop ctrs signal ok failures w =
      (Ret (ok ++ batch_ok (omap kill_call evs),
            batch_failures (omap kill_call evs) failures),
       {| eng := s; trace := trace w ++ evs |})
    ∧ fst <$> omap kill_call evs = ctrs
    ∧ omap kill_signal evs = (fun _ => GoInt.to_uint signal) <$> ctrs.
Proof.
  induction ctrs as [|c rest IH]; intros ok failures w.
  - exists [], (eng w). simpl. rewrite !app_nil_r. by destruct w.
  - simpl. mstep.
    destruct (ctr_Kill c (GoInt.to_uint signal) (eng w)) as [s r] eqn:Hkill.
    destruct r as [e|].
    + destruct (IH ok (<[ID c := e]> failures)
                  {| eng := s; trace := trace w ++ [EvKill c (GoInt.to_uint signal) (Some e)] |})
        as (evs & s' & Hrun & Hc & Hs).
      exists (EvKill c (GoInt.to_uint signal) (Some e) :: evs), s'.
      rewrite Hrun. simpl. rewrite <- !app_assoc. repeat split; f_equal; done.
    + destruct (IH (ok ++ [ID c]) failures
                  {| eng := s; trace := trace w ++ [EvKill c (GoInt.to_uint signal) None] |})
        as (evs & s' & Hrun & Hc & Hs).
      exists (EvKill c (GoInt.to_uint signal) None :: evs), s'.
      rewrite Hrun. simpl. rewrite <- !app_assoc. repeat split; f_equal; done.
Qed.

Lemma WaitOnContainers_loop_spec ctrs interval :
  ∀ ok failures w,
  ∃ evs s,
    WaitOnContainers_loop ctrs interval ok failures w =
      (Ret (ok ++ batch_ok (omap wait_call evs),
            batch_failures (omap wait_call evs) failures),
       {| eng := s; trace := trace w ++ evs |})
    ∧ fst <$> omap wait_call evs = ctrs
    ∧ Forall (fun ev => is_wait_with_interval ev = true) evs.
Proof.
  induction ctrs as [|c rest IH]; intros ok failures w.
  - exists [], (eng w). simpl. rewrite !app_nil_r. by destruct w.
  - simpl. mstep.
    destruct (ctr_WaitWithInterval c interval (eng w)) as [s [code r]] eqn:Hwait.
    destruct r as [e|].
    + destruct (IH ok (<[ID c := e]> failures)
                  {| eng := s; trace := trace w ++ [EvWaitWithInterval c interval (code, Some e)] |})
        as (evs & s' & Hrun & Hc & Hall).
      exists (EvWaitWithInterval c interval (code, Some e) :: evs), s'.
      rewrite Hrun. simpl. rewrite <- !app_assoc.
      repeat split; [f_equal; done|by constructor].
    + destruct (IH (ok ++ [GoString.Itoa code]) failures
                  {| eng := s; trace := trace w ++ [EvWaitWithInterval c interval (code, None)] |})
        as (evs & s' & Hrun & Hc & Hall).
      exists (EvWaitWithInterval c interval (code, None) :: evs), s'.
      rewrite Hrun. simpl. rewrite <- !app_assoc.
      repeat split; [f_equal; done|by constructor].
Qed.

Lemma stop_call_timeout (evs : list Event) :
  fst <$> omap stop_call evs = fst <$> omap stop_timeout evs.
Proof.
  induction evs as [|ev evs IH]; [done|].
  destruct ev; simpl; try done. f_equal. exact IH.
Qed.

(** *** Facts about the two outputs of a batch *)

Lemma batch_ok_elem (calls : list (Container * verdict)) s :
  s ∈ batch_ok calls ↔ ∃ c, (c, Succeeded s) ∈ calls.
Proof.
  unfold batch_ok. rewrite list_elem_of_omap. split.
  - intros ([c v] & Hin & Hv). simpl in Hv. destruct v; simplify_eq. eauto.
  - intros (c & Hin). exists (c, Succeeded s). done.
Qed.

Lemma batch_failures_snoc calls cv init :
  batch_failures (calls ++ [cv]) init =
  match snd cv with
  | Failed e => <[ID (fst cv) := e]> (batch_failures calls init)
  | Succeeded _ => batch_failures calls init
  end.
Proof. unfold batch_failures. by rewrite foldl_app. Qed.

Lemma batch_failures_is_Some calls init id :
  is_Some (batch_failures calls init !! id) ↔
  is_Some (init !! id) ∨ ∃ c e, (c, Failed e) ∈ calls ∧ ID c = id.
Proof.
  induction calls as [|[c v] calls IH] using rev_ind.
  - simpl. split; [auto|]. intros [?|(c & e & Hin & _)]; [done|]. by apply elem_of_nil in Hin.
  - rewrite batch_failures_snoc. simpl. destruct v as [s|e].
    + rewrite IH. split.
      * intros [?|(c' & e & Hin & Hid)]; [by left|]. right. exists c', e.
        split; [|done]. apply elem_of_app. by left.
      * intros [?|(c' & e & Hin & Hid)]; [by left|]. right.
        apply elem_of_app in Hin as [Hin|Hin]; [eauto|].
        apply list_elem_of_singleton in Hin. simplify_eq.
    + destruct (decide (ID c = id)) as [<-|Hne].
      * rewrite lookup_insert_eq. split; [|intros _; by eexists]. intros _. right.
        exists c, e. split; [|done]. apply elem_of_app. right. by apply list_elem_of_singleton.
      * rewrite lookup_insert_ne by done. rewrite IH. split.
        -- intros [?|(c' & e' & Hin & Hid)]; [by left|]. right. exists c', e'.
           split; [|done]. apply elem_of_app. by left.
        -- intros [?|(c' & e' & Hin & Hid)]; [by left|]. right.
           apply elem_of_app in Hin as [Hin|Hin]; [eauto|].
           apply list_elem_of_singleton in Hin. simplify_eq.
Qed.

Lemma batch_failures_lookup calls init id e :
  batch_failures calls init !! id = Some e →
  init !! id = Some e ∨ ∃ c, (c, Failed e) ∈ calls ∧ ID c = id.
Proof.
  induction calls as [|[c v] calls IH] using rev_ind; [by left|].
  rewrite batch_failures_snoc. simpl. destruct v as [s|e'].
  - intros [?|(c' & Hin & Hid)]%IH; [by left|]. right. exists c'.
    split; [|done]. apply elem_of_app. by left.
  - destruct (decide (ID c = id)) as [<-|Hne].
    + rewrite lookup_insert_eq. intros [= ->]. right. exists c.
      split; [|done]. apply elem_of_app. right. by apply list_elem_of_singleton.
    + rewrite lookup_insert_ne by done.
      intros [?|(c' & Hin & Hid)]%IH; [by left|]. right. exists c'.
      split; [|done]. apply elem_of_app. by left.
Qed.

(** With distinct ids, a container has one call and so one verdict. *)
Lemma calls_verdict_unique (calls : list (Container * verdict)) c1 v1 c2 v2 :
  NoDup ((fun cv => ID (fst cv)) <$> calls) →
  (c1, v1) ∈ calls → (c2, v2) ∈ calls → ID c1 = ID c2 → v1 = v2.
Proof.
  induction calls as [|[c v] calls IH]; simpl.
  - intros _ Hin. by apply elem_of_nil in Hin.
  - intros [Hnotin Hnd]%NoDup_cons [Heq1|Hin1]%elem_of_cons [Heq2|Hin2]%elem_of_cons Hid.
    + congruence.
    + exfalso. apply Hnotin. apply list_elem_of_fmap. exists (c2, v2). simplify_eq. split; [|done]. simpl. congruence.
    + exfalso. apply Hnotin. apply list_elem_of_fmap. exists (c1, v1). simplify_eq. split; [|done]. simpl. congruence.
    + eauto.
Qed.



Lemma StopContainers_run cli w s ctrs :
  shortcuts_GetContainersByContext (stop_All cli) (stop_Latest cli)
    (InputArgs (stop_cmd cli)) (eng w) = (s, (ctrs, None)) →
  ∃ evs s',
    StopContainers cli w =
      (Ret (batch_ok (omap stop_call evs), batch_failures (omap stop_call evs) ∅, None),
       {| eng := s'; trace := trace w ++ evs |})
    ∧ omap stop_timeout evs =
        (fun c => (c, if Changed (stop_cmd cli) "timeout" || Changed (stop_cmd cli) "time"
                      then GoInt.to_uint (stop_Timeout cli)
                      else match ctrs with c1 :: _ => StopTimeout c1 | [] => 0 end)) <$> ctrs
    ∧ default_timeout_logs evs =
        (if Changed (stop_cmd cli) "timeout" || Changed (stop_cmd cli) "time" then 0%nat
         else match ctrs with _ :: _ => 1%nat | [] => 0%nat end).
Proof.
  intros Hres. unfold StopContainers. mstep. rewrite Hres.
  set (timeout := if Changed (stop_cmd cli) "timeout" || Changed (stop_cmd cli) "time"
                  then Some (GoInt.to_uint (stop_Timeout cli)) else None).
  set (w1 := {| eng := s; trace := _ |}).
  destruct (StopContainers_loop_spec ctrs timeout [] ∅ w1) as (evs & s' & Hrun & Htm & Hlog).
  exists (EvGetContainersByContext (stop_All cli) (stop_Latest cli)
            (InputArgs (stop_cmd cli)) (ctrs, None) :: evs), s'.
  rewrite Hrun. subst w1 timeout. simpl.
  rewrite <- app_assoc. split; [reflexivity|]. split.
  - etransitivity; [exact Htm|].
    destruct (Changed (stop_cmd cli) "timeout" || Changed (stop_cmd cli) "time"); done.
  - etransitivity; [exact Hlog|].
    destruct (Changed (stop_cmd cli) "timeout" || Changed (stop_cmd cli) "time"); done.
Qed.

Lemma KillContainers_run cli signal w s ctrs :
  shortcuts_GetContainersByContext (kill_All cli) (kill_Latest cli)
    (InputArgs (kill_cmd cli)) (eng w) = (s, (ctrs, None)) →
  ∃ evs s',
    KillContainers cli signal w =
      (Ret (batch_ok (omap kill_call evs), batch_failures (omap kill_call evs) ∅, None),
       {| eng := s'; trace := trace w ++ evs |})
    ∧ fst <$> omap kill_call evs = ctrs
    ∧ omap kill_signal evs = (fun _ => GoInt.to_uint signal) <$> ctrs.
Proof.
  intros Hres. unfold KillContainers. mstep. rewrite Hres.
  set (w1 := {| eng := s; trace := _ |}).
  destruct (KillContainers_loop_spec ctrs signal [] ∅ w1) as (evs & s' & Hrun & Hc & Hs).
  exists (EvGetContainersByContext (kill_All cli) (kill_Latest cli)
            (InputArgs (kill_cmd cli)) (ctrs, None) :: evs), s'. rewrite Hrun. subst w1. simpl.
  rewrite <- app_assoc. split; [reflexivity|]. done.
Qed.

Lemma WaitOnContainers_run cli interval w s ctrs :
  shortcuts_GetContainersByContext false (wait_Latest cli)
    (InputArgs (wait_cmd cli)) (eng w) = (s, (ctrs, None)) →
  ∃ evs s',
    WaitOnContainers cli interval w =
      (Ret (batch_ok (omap wait_call evs), batch_failures (omap wait_call evs) ∅, None),
       {| eng := s';
          trace := trace w ++
            EvGetContainersByContext false (wait_Latest cli)
              (InputArgs (wait_cmd cli)) (ctrs, None) :: evs |})
    ∧ fst <$> omap wait_call evs = ctrs
    ∧ Forall (fun ev => is_wait_with_interval ev = true) evs.
Proof.
  intros Hres. unfold WaitOnContainers. mstep. rewrite Hres.
  set (w1 := {| eng := s; trace := _ |}).
  destruct (WaitOnContainers_loop_spec ctrs interval [] ∅ w1) as (evs & s' & Hrun & Hc & Hall).
  exists evs, s'. rewrite Hrun. subst w1. simpl.
  rewrite <- app_assoc. split; [reflexivity|]. done.
Qed.

Lemma stop_call_succeeded (evs : list Event) c s :
  (c, Succeeded s) ∈ omap stop_call evs → s = ID c.
Proof.
  intros (ev & _ & Hev)%list_elem_of_omap.
  destruct ev; simpl in Hev; try done. unfold stop_verdict in Hev.
  destruct res as [e|]; [destruct (decide _)|]; by simplify_eq.
Qed.


Lemma calls_ids (calls : list (Container * verdict)) ctrs :
  fst <$> calls = ctrs → (fun cv => ID (fst cv)) <$> calls = ID <$> ctrs.
Proof. intros <-. by rewrite <- list_fmap_compose. Qed.




Lemma wait_ok_entries (evs : list Event) :
  batch_ok (omap wait_call evs) = omap wait_ok_entry evs.
Proof.
  induction evs as [|ev evs IH]; [done|].
  destruct ev; simpl; try done.
  destruct res as [code [e|]]; simpl; [done|]. f_equal. exact IH.
Qed.



(** C4.  A batch stop without --timeout/--time over two containers or
    more: every stop call, the first and all the later ones, is given the
    first container's default stop timeout, whatever the defaults of the
    others are; the default is set once. *)
Theorem StopContainers_first_default_timeout_shared cli w s c1 c2 rest :
  Changed (stop_cmd cli) "timeout" = false →
  Changed (stop_cmd cli) "time" = false →
  shortcuts_GetContainersByContext (stop_All cli) (stop_Latest cli)
    (InputArgs (stop_cmd cli)) (eng w) = (s, (c1 :: c2 :: rest, None)) →
  ∃ ok failures evs s',
    StopContainers cli w =
      (Ret (ok, failures, None), {| eng := s'; trace := trace w ++ evs |})
    ∧ omap stop_timeout evs = (fun c => (c, StopTimeout c1)) <$> (c1 :: c2 :: rest)
    ∧ default_timeout_logs evs = 1%nat.
Proof.
  intros Htimeout Htime Hres.
  destruct (StopContainers_run _ _ _ _ Hres) as (evs & s' & Hrun & Htm & Hlog).
  rewrite Htimeout, Htime in Htm, Hlog. simpl in Htm, Hlog.
  do 4 eexists. split; [exact Hrun|]. split; [exact Htm|exact Hlog].
Qed.

Lemma stop_ok_entries (evs : list Event) :
  batch_ok (omap stop_call evs) = omap stop_ok_entry evs.
Proof.
  induction evs as [|ev evs IH]; [done|].
  destruct ev; simpl; try done. unfold stop_verdict.
  destruct res as [e|]; [destruct (decide _)|]; simpl; try done; f_equal; exact IH.
Qed.

Lemma stop_failed_call (evs : list Event) c e :
  (c, Failed e) ∈ omap stop_call evs ↔
  ∃ t, EvStopWithTimeout c t (Some e) ∈ evs ∧ errors_Cause e ≠ libpod_ErrCtrStopped.
Proof.
  rewrite list_elem_of_omap. split.
  - intros (ev & Hin & Hev). destruct ev; simpl in Hev; try done.
    unfold stop_verdict in Hev.
    destruct res as [e'|]; [destruct (decide _)|]; simplify_eq. eauto.
  - intros (t & Hin & Hcause). eexists. split; [exact Hin|]. simpl.
    unfold stop_verdict. by rewrite decide_False.
Qed.

(** C7, as amended.  A batch stop calls stop once on each resolved
    container, in order.  A call that fails with libpod.ErrCtrStopped as
    its cause counts as a success: the ok list is the ids of the calls that
    returned nil or such an error, in the order of the calls, so the id of
    an already stopped container is appended to it.  Such an error is never
    what the failures map records: every error in the map has another
    cause and comes from a stop call on a container of that id, and every
    stop call that fails with another cause leaves an entry under the id
    of its container.  When the resolved ids are distinct, the id of an
    already stopped container is not a key of the failures map. *)
Theorem StopContainers_already_stopped_is_success cli w s ctrs :
  shortcuts_GetContainersByContext (stop_All cli) (stop_Latest cli)
    (InputArgs (stop_cmd cli)) (eng w) = (s, (ctrs, None)) →
  ∃ ok failures evs s',
    StopContainers cli w =
      (Ret (ok, failures, None), {| eng := s'; trace := trace w ++ evs |})
    ∧ fst <$> omap stop_timeout evs = ctrs
    ∧ ok = omap stop_ok_entry evs
    ∧ (∀ c t e,
         EvStopWithTimeout c t (Some e) ∈ evs →
         errors_Cause e = libpod_ErrCtrStopped →
         ID c ∈ ok)
    ∧ (∀ id e,
         failures !! id = Some e →
         errors_Cause e ≠ libpod_ErrCtrStopped
         ∧ ∃ c t, EvStopWithTimeout c t (Some e) ∈ evs ∧ ID c = id)
    ∧ (∀ c t e,
         EvStopWithTimeout c t (Some e) ∈ evs →
         errors_Cause e ≠ libpod_ErrCtrStopped →
         is_Some (failures !! ID c))
    ∧ (NoDup (ID <$> ctrs) →
       ∀ c t e,
         EvStopWithTimeout c t (Some e) ∈ evs →
         errors_Cause e = libpod_ErrCtrStopped →
         failures !! ID c = None).
Proof.
  intros Hres.
  destruct (StopContainers_run _ _ _ _ Hres) as (evs & s' & Hrun & Htm & _).
  assert (Hcalled : ∀ c t e,
            EvStopWithTimeout c t (Some e) ∈ evs →
            errors_Cause e = libpod_ErrCtrStopped →
            (c, Succeeded (ID c)) ∈ omap stop_call evs).
  { intros c t e Hin Hcause. apply list_elem_of_omap. eexists. split; [exact Hin|].
    simpl. unfold stop_verdict. by rewrite decide_True. }
  do 4 eexists. split; [exact Hrun|]. split; [|split; [|split; [|split; [|split]]]].
  - rewrite Htm, <- list_fmap_compose. apply list_fmap_id.
  - apply stop_ok_entries.
  - intros c t e Hin Hcause. apply batch_ok_elem. eauto.
  - intros id e [Hl|(c & Hin & Hid)]%batch_failures_lookup;
      [by rewrite lookup_empty in Hl|].
    apply stop_failed_call in Hin as (t & Hin & Hcause). eauto.
  - intros c t e Hin Hcause. apply batch_failures_is_Some. right. exists c, e.
    split; [|done]. apply stop_failed_call. eauto.
  - intros Hnd c t e Hin Hcause. apply eq_None_not_Some.
    rewrite batch_failures_is_Some.
    intros [[? Hl]|(c' & e' & Hin' & Hid)]; [by rewrite lookup_empty in Hl|].
    assert (Hc : fst <$> omap stop_call evs = ctrs).
    { rewrite stop_call_timeout, Htm, <- list_fmap_compose. apply list_fmap_id. }
    rewrite <- (calls_ids _ _ Hc) in Hnd.
    pose proof (calls_verdict_unique _ _ _ _ _ Hnd (Hcalled _ _ _ Hin Hcause) Hin'
                  (eq_sym Hid)). done.
Qed.




End BatchProofs.


(** ** The run orchestrator *)

Section RunBlocks.

Context `{Env}.

Lemma append_cons a s t : String a s +:+ t = String a (s +:+ t).
Proof. reflexivity. Qed.

Lemma append_nil t : "" +:+ t = t.
Proof. reflexivity. Qed.

Lemma HasPrefix_spec p : ∀ s, GoString.HasPrefix s p = true ↔ ∃ post, s = p +:+ post.
Proof.
  induction p as [|b p IH]; intros s; simpl.
  - split; [eauto|done].
  - destruct s as [|a s].
    + split; [done|]. by intros (post & ?).
    + destruct (Ascii.eqb_spec a b) as [->|Hne].
      * rewrite IH. split; intros (post & Hpost); exists post;
          rewrite append_cons in *; congruence.
      * split; [done|]. intros (post & ?). rewrite append_cons in *. congruence.
Qed.

Lemma Contains_cons a s sub :
  GoString.HasPrefix (String a s) sub = false →
  GoString.Contains (String a s) sub ↔ GoString.Contains s sub.
Proof.
  intros Hpre. split.
  - intros (pre & post & Heq). destruct pre as [|a' pre];
      rewrite ?append_cons, ?append_nil in Heq.
    + assert (GoString.HasPrefix (String a s) sub = true) by (apply HasPrefix_spec; eauto).
      congruence.
    + exists pre, post. congruence.
  - intros (pre & post & ->). by exists (String a pre), post.
Qed.

Lemma Index_from_spec s sub : ∀ i, 0 <= i →
  (GoString.Index_from i s sub = -1 ∧ ¬ GoString.Contains s sub)
  ∨ (i <= GoString.Index_from i s sub ∧ GoString.Contains s sub).
Proof.
  induction s as [|a s IH]; intros i Hi; simpl.
  - destruct (GoString.HasPrefix "" sub) eqn:Hpre.
    + right. split; [lia|]. apply HasPrefix_spec in Hpre as (post & Hpost).
      by exists "", post.
    + left. split; [done|]. intros (pre & post & Heq).
      destruct pre; [|done]. rewrite append_nil in Heq.
      assert (GoString.HasPrefix "" sub = true) by (apply HasPrefix_spec; eauto).
      congruence.
  - destruct (GoString.HasPrefix (String a s) sub) eqn:Hpre.
    + right. split; [lia|]. apply HasPrefix_spec in Hpre as (post & Hpost).
      by exists "", post.
    + rewrite (Contains_cons _ _ _ Hpre).
      destruct (IH (i + 1)) as [?|[? ?]]; [lia|by left|right]. split; [lia|done].
Qed.

Lemma Index_Contains s sub :
  (GoString.Index s sub >? -1) = true ↔ GoString.Contains s sub.
Proof.
  unfold GoString.Index.
  destruct (Index_from_spec s sub 0) as [[-> Hno]|[Hge Hyes]]; [lia|..].
  - split; [done|]. intros. done.
  - split; [done|]. intros _. apply Z.gtb_lt. lia.
Qed.

Lemma start_failure_code_spec e :
  (GoString.Contains (Error e) "permission denied" → start_failure_code e = 126)
  ∧ (¬ GoString.Contains (Error e) "permission denied" → start_failure_code e = 127).
Proof.
  unfold start_failure_code.
  destruct (GoString.Index (Error e) "permission denied" >? -1) eqn:Hidx.
  - split; [done|]. intros Hno. by apply Index_Contains in Hidx.
  - split; [|done]. intros Hyes%Index_Contains. congruence.
Qed.


Lemma Run_debug_spec ctr w o w' :
  Run_debug ctr w = (o, w') →
  ∃ devs, trace w' = trace w ++ devs ∧ Forall (fun ev => is_debug_event ev = true) devs.
Proof.
  unfold Run_debug. mstep. intros Hrun.
  run_cases_in Hrun; simplify_eq; simpl.
  all: first [ by exists []; rewrite app_nil_r
             | rewrite <- ?app_assoc; eexists; split; [reflexivity|];
               repeat constructor ].
Qed.

Lemma filter_debug_events (P : Event → bool) devs :
  Forall (fun ev => is_debug_event ev = true) devs →
  (∀ ev, is_debug_event ev = true → P ev = false) →
  List.filter P devs = [].
Proof.
  intros Hall HP. induction Hall as [|ev devs Hev _ IH]; [done|].
  simpl. by rewrite (HP _ Hev).
Qed.

End RunBlocks.

Section RunProofs.

Context `{Env}.

(** C6.  A run configured detached whose start succeeds prints the
    container id on a line of its own and nothing else, and returns exit
    code 0 with no error right after: the print is the last thing it does,
    and it neither attaches to the container nor waits for it. *)
Theorem Run_detached_prints_id_and_returns_0
    c exitCode w0 res w' evs ctr cfg recursive :
  Run c exitCode w0 = (res, w') →
  trace w' = trace w0 ++ evs →
  EvCreateContainer (Some ctr, Some cfg, None) ∈ evs →
  Detach cfg = true →
  EvStart ctr recursive None ∈ evs →
  res = Ret (0, None)
  ∧ List.filter is_print evs = [EvPrint (ID ctr +:+ newline)]
  ∧ (∃ pre, evs = pre ++ [EvStart ctr recursive None; EvPrint (ID ctr +:+ newline)])
  ∧ List.filter is_start_attach evs = []
  ∧ List.filter is_wait evs = [].
Proof.
  intros Hrun Htrace Hcreate Hdetach Hstart.
  run_cases Hrun; run_leaf_with Run_debug_spec Hrun Htrace; elem_inv Hstart.
  simpl. rewrite !List.filter_app. simpl.
  rewrite !(filter_debug_events _ devs Hall) by (by intros []).
  repeat split. by eexists (_ :: _).
Qed.

(** C3.  Whether the run is detached or attached, when the start step (the
    start call, or the start-and-attach call) fails with an error that is not a
    user detach, Run returns that error with exit code 126 if its text
    contains "permission denied" and with exit code 127 if it does not. *)
Theorem Run_start_failure_exit_code c exitCode w0 res w' evs e :
  Run c exitCode w0 = (res, w') →
  trace w' = trace w0 ++ evs →
  (∃ ctr recursive, EvStart ctr recursive (Some e) ∈ evs)
  ∨ (∃ ctr out err inp keys sig start recursive,
       EvStartAttachCtr (Some ctr) out err inp keys sig start recursive (Some e) ∈ evs
       ∧ errors_Cause e ≠ libpod_ErrDetach) →
  ∃ code,
    res = Ret (code, Some e)
    ∧ (GoString.Contains (Error e) "permission denied" → code = 126)
    ∧ (¬ GoString.Contains (Error e) "permission denied" → code = 127).
Proof.
  intros Hrun Htrace Hstart.
  run_cases Hrun; run_leaf_with Run_debug_spec Hrun Htrace.
  all: destruct Hstart as [(ctr & recursive & Hstart)
                          |(ctr & out & err & inp & keys & sig & start & recursive
                            & Hstart & Hcause)];
    elem_inv Hstart.
  all: try done.
  all: eexists; split; [reflexivity|apply start_failure_code_spec].
Qed.
Lemma Run_attach_loop_inr l : ∀ st st',
  Run_attach_loop l st = inr st' →
  outputStream st' = (if stream_named "stdout" l then Some os_Stdout else outputStream st)
  ∧ errorStream st' = (if stream_named "stderr" l then Some os_Stderr else errorStream st)
  ∧ inputStream st' = (if stream_named "stdin" l then Some os_Stdin else inputStream st).
Proof.
  induction l as [|stream l IH]; intros st st'; simpl.
  - by intros [= ->].
  - set (name := strings_ToLower stream).
    destruct (String.eqb_spec name "stdout") as [Heq|?]; [rewrite ?Heq; simpl|].
    { intros (-> & -> & ->)%IH. simpl. by destruct (stream_named "stdout" l). }
    destruct (String.eqb_spec name "stderr") as [Heq|?]; [rewrite ?Heq; simpl|].
    { intros (-> & -> & ->)%IH. simpl. by destruct (stream_named "stderr" l). }
    destruct (String.eqb_spec name "stdin") as [Heq|?]; [rewrite ?Heq; simpl|].
    { intros (-> & -> & ->)%IH. simpl. by destruct (stream_named "stdin" l). }
    done.
Qed.

Lemma attach_lists_spec c name :
  attach_lists c name = true ↔
  ∃ stream, stream ∈ StringSlice (run_cmd c) "attach" ∧ strings_ToLower stream = name.
Proof.
  unfold attach_lists, stream_named. rewrite existsb_exists. split.
  - intros (stream & Hin%list_elem_of_In & Heq%String.eqb_eq). eauto.
  - intros (stream & Hin%list_elem_of_In & Heq%String.eqb_eq). eauto.
Qed.

(** C5, as amended.  In an attached run given an explicit attach list, the
    list replaces the default for stdout and stderr, each of which takes
    part exactly when it is listed; stdin takes part exactly when it is
    listed or interactive mode is set.  In particular with --attach stdout
    and interactive unset, stdout takes part and stdin does not. *)
Theorem Run_attach_list_selects_streams
    c exitCode w0 res w' evs ctr out err inp keys sig start recursive r :
  Run c exitCode w0 = (res, w') →
  trace w' = trace w0 ++ evs →
  IsSet (run_cmd c) "attach" || IsSet (run_cmd c) "a" = true →
  EvStartAttachCtr ctr out err inp keys sig start recursive r ∈ evs →
  out = (if attach_lists c "stdout" then Some os_Stdout else None)
  ∧ err = (if attach_lists c "stderr" then Some os_Stderr else None)
  ∧ inp = (if attach_lists c "stdin" || Bool (run_cmd c) "interactive"
           then Some os_Stdin else None)
  ∧ (StringSlice (run_cmd c) "attach" = ["stdout"] →
     Bool (run_cmd c) "interactive" = false →
     out = Some os_Stdout ∧ inp = None).
Proof.
  intros Hrun Htrace Hattach Hcall.
  assert (Hparticular :
    StringSlice (run_cmd c) "attach" = ["stdout"] →
    attach_lists c "stdout" = true ∧ attach_lists c "stdin" = false).
  { intros Hl. unfold attach_lists, stream_named. rewrite Hl. simpl.
    rewrite (strings_ToLower_ascii "stdout") by reflexivity. done. }
  run_cases Hrun; run_leaf_with Run_debug_spec Hrun Htrace; elem_inv Hcall.
  all: match goal with
       | Hsel : Run_select_streams _ = inr _ |- _ =>
           unfold Run_select_streams in Hsel; rewrite Hattach in Hsel;
           apply Run_attach_loop_inr in Hsel as (-> & -> & ->)
       end.
  all: fold (attach_lists c "stdout") (attach_lists c "stderr") (attach_lists c "stdin").
  all: simpl.
  all: destruct (Bool (run_cmd c) "interactive") eqn:Hi; simpl;
    rewrite ?orb_true_r, ?orb_false_r.
  all: repeat split; try (by destruct (attach_lists c "stdin")); try done.
  all: match goal with
       | Hl : StringSlice _ _ = _ |- _ =>
           destruct (Hparticular Hl) as [Hout Hin]; by rewrite ?Hout, ?Hin
       end.
Qed.

(** C2, as amended.  In an attached run whose wait fails with no such
    container, Run asks the runtime for its configuration.  When it gets
    it, the exit record of the container id is looked for under the
    configured temp directory: a record that is there, readable and holds
    an integer v (42, say) makes Run return exit code v with no error; a
    recovery that fails (no file, an unreadable file, text that is not an
    integer) is logged as an error and makes Run return exit code 127 with
    no error.  When the configuration itself cannot be obtained, Run
    returns that error with the exit code it was given, reads no file and
    logs nothing. *)
Theorem Run_exit_file_fallback c exitCode w0 res w' evs ctr code e :
  Run c exitCode w0 = (res, w') →
  trace w' = trace w0 ++ evs →
  EvWait ctr (code, Some e) ∈ evs →
  errors_Cause e = libpod_ErrNoSuchCtr →
  (∃ r, EvGetConfig r ∈ evs)
  ∧ (∀ config,
       EvGetConfig (Some config, None) ∈ evs →
       let exitFile := exitFile_path (TmpDir config) (ID ctr) in
       (∃ r, EvStat exitFile r ∈ evs)
       ∧ (∀ content v,
            EvStat exitFile None ∈ evs →
            EvReadFile exitFile (content, None) ∈ evs →
            GoString.Atoi content = GoString.AtoiOk v →
            res = Ret (v, None))
       ∧ (recovery_failed exitFile evs →
          res = Ret (127, None)
          ∧ ∃ e', EvLog ErrorLevel ("Cannot get exit code: " +:+ Error e') ∈ evs))
  ∧ (∀ config e',
       EvGetConfig (config, Some e') ∈ evs →
       res = Ret (exitCode, Some e')
       ∧ List.filter is_file_access evs = []
       ∧ List.filter is_error_log evs = []).
Proof.
  intros Hrun Htrace Hwait Hcause.
  run_cases Hrun; run_leaf_with Run_debug_spec Hrun Htrace; elem_inv Hwait.
  all: try congruence.
  all: split; [eexists; elem_find|].
  all: split.
  all: try (intros config' e' Hcfg; elem_inv Hcfg;
            simpl; rewrite !List.filter_app; simpl;
            rewrite !(filter_debug_events _ devs)
              by (done || (intros [] ?; try done;
                           by match goal with l : Level |- _ => destruct l end));
            done).
  all: intros config' Hcfg; elem_inv Hcfg.
  all: cbv zeta; unfold exitFile_path.
  all: split; [eexists; elem_find|].
  all: split.
  all: try (intros content' v' Hstat Hread Hatoi; elem_inv Hstat; elem_inv Hread; congruence).
  all: intros [(ef & Hf)|[(content' & ef & Hf)|(content' & Hf & Hbad)]]; elem_inv Hf.
  all: try (exfalso; eapply Hbad; eassumption).
  all: split; [reflexivity|].
  all: eexists {| errors_Cause := foreign_root; Error := _ |}; simpl; elem_find.
Qed.

End RunProofs.

(** ** Log and CreateContainer *)

Section LogCreateProofs.

Context `{Env}.





(** C10.  When the engine's creation returns an error, CreateContainer
    still reads the id through the handle it got back before it returns:
    with a handle it returns that id together with the error, and with a
    nil handle it panics.  It returns normally exactly when the engine hands
    back a handle even though creation failed. *)
Theorem CreateContainer_dereferences_handle_on_error c w s ctr cfg e :
  shared_CreateContainer (create_cmd c) (eng w) = (s, (ctr, cfg, Some e)) →
  CreateContainer c w =
    (match ctr with
     | Some handle => Ret (ID handle, Some e)
     | None => Panic
     end,
     {| eng := s; trace := trace w ++ [EvCreateContainer (ctr, cfg, Some e)] |})
  ∧ (fst (CreateContainer c w) = Panic ↔ ctr = None).
Proof.
  intros Hcreate.
  assert (Hrun : CreateContainer c w =
    (match ctr with
     | Some handle => Ret (ID handle, Some e)
     | None => Panic
     end,
     {| eng := s; trace := trace w ++ [EvCreateContainer (ctr, cfg, Some e)] |})).
  { unfold CreateContainer. mstep. rewrite Hcreate. by destruct ctr. }
  split; [exact Hrun|]. rewrite Hrun. simpl. by destruct ctr.
Qed.

End LogCreateProofs.

(** * Concrete runs on the scripted engine *)

Lemma run_is_pair {A} (r : outcome A * @World Toy.env) : r = (fst r, snd r).
Proof. by destruct r. Defined.

Lemma NoDup_three : NoDup (ID <$> [Toy.c1; Toy.c2; Toy.c3]).
Proof. apply (bool_decide_unpack _). vm_compute. exact I. Defined.


(** What the batch wait of the three containers returns. *)
Example WaitOnContainers_three :
  fst (WaitOnContainers Toy.wait_three 250 (Toy.world Toy.three)) =
  Ret (["0"; "137"], {["c3" := Toy.ErrNoSuchCtr]}, None).
Proof. vm_compute. reflexivity. Qed.

Example StopContainers_three :
  fst (StopContainers Toy.stop_three (Toy.world Toy.three)) =
  Ret (["c1"; "c2"], {["c3" := Toy.ENOENT]}, None).
Proof. vm_compute. reflexivity. Qed.


(** A batch stop of c1 (default timeout 10), c2 (30) and c3 (5) with no
    --timeout. *)
Lemma StopContainers_first_default_timeout_shared_witness :
  ∃ ok failures evs s',
    StopContainers Toy.stop_three (Toy.world Toy.three) =
      (Ret (ok, failures, None), {| eng := s'; trace := [] ++ evs |})
    ∧ omap stop_timeout evs = [(Toy.c1, 10); (Toy.c2, 10); (Toy.c3, 10)]
    ∧ default_timeout_logs evs = 1%nat.
Proof.
  exact (StopContainers_first_default_timeout_shared Toy.stop_three
           (Toy.world Toy.three) Toy.three Toy.c1 Toy.c2 [Toy.c3]
           eq_refl eq_refl eq_refl).
Defined.

(** The same batch stop: c2 is already stopped. *)
Lemma StopContainers_already_stopped_is_success_witness :
  ∃ ok failures evs s',
    StopContainers Toy.stop_three (Toy.world Toy.three) =
      (Ret (ok, failures, None), {| eng := s'; trace := [] ++ evs |})
    ∧ omap stop_timeout evs = [(Toy.c1, 10); (Toy.c2, 10); (Toy.c3, 10)]
    ∧ EvStopWithTimeout Toy.c2 10 (Some Toy.ErrCtrStopped) ∈ evs
    ∧ "c2" ∈ ok
    ∧ failures !! "c2" = None.
Proof.
  destruct (StopContainers_already_stopped_is_success Toy.stop_three
              (Toy.world Toy.three) Toy.three [Toy.c1; Toy.c2; Toy.c3] eq_refl)
    as (ok & failures & evs & s' & Hrun & Hcalls & Hok & Hstopped & Hfailed & Hkept
        & Hdistinct).
  assert (Hevs : evs =
            trace (snd (StopContainers Toy.stop_three (Toy.world Toy.three))))
    by (rewrite Hrun; reflexivity).
  assert (Hin : EvStopWithTimeout Toy.c2 10 (Some Toy.ErrCtrStopped) ∈ evs)
    by (rewrite Hevs; vm_compute; elem_find).
  exists ok, failures, evs, s'. split; [exact Hrun|]. split; [|split; [exact Hin|split]].
  - rewrite Hevs. vm_compute. reflexivity.
  - exact (Hstopped Toy.c2 10 Toy.ErrCtrStopped Hin eq_refl).
  - exact (Hdistinct NoDup_three Toy.c2 10 Toy.ErrCtrStopped Hin eq_refl).
Defined.

(** C7, refuted as worded: in [podman stop c1 c1] the first stop of c1
    fails and the second finds it stopped; c1 is appended to the ok list
    and is a key of the failures map as well. *)
Lemma stopped_container_recorded_in_failures : ¬ stopped_container_never_in_failures.
Proof.
  intros Hclaim.
  assert (Hrun : @StopContainers Replay.env Scripts.stop_twice Replay.fails_then_stopped =
                 (Ret (["c1"], {["c1" := Toy.ENOENT]}, None),
                  snd (@StopContainers Replay.env Scripts.stop_twice
                         Replay.fails_then_stopped)))
    by (vm_compute; reflexivity).
  destruct (Hclaim Replay.env Scripts.stop_twice Replay.fails_then_stopped
              _ _ _ _
              (trace (snd (@StopContainers Replay.env Scripts.stop_twice
                             Replay.fails_then_stopped)))
              (mkContainer "c1" 10) 10 Toy.ErrCtrStopped
              Hrun eq_refl ltac:(vm_compute; elem_find) eq_refl) as [_ Hnone].
  vm_compute in Hnone. discriminate Hnone.
Qed.

Example StopContainers_fails_then_stopped :
  fst (@StopContainers Replay.env Scripts.stop_twice Replay.fails_then_stopped) =
    Ret (["c1"], {["c1" := Toy.ENOENT]}, None)
  ∧ omap stop_timeout
      (trace (snd (@StopContainers Replay.env Scripts.stop_twice
                     Replay.fails_then_stopped))) =
    [(mkContainer "c1" 10, 10); (mkContainer "c1" 10, 10)].
Proof. split; vm_compute; reflexivity. Qed.


Example wait_action_on_c1 :
  fst (wait_action false Toy.wait_one 250 Scripts.ErrInvalidArg (Toy.world Toy.one)) =
    Ret (["0"], ∅, None)
  ∧ trace (snd (wait_action false Toy.wait_one 250 Scripts.ErrInvalidArg
                  (Toy.world Toy.one))) =
    [EvGetContainersByContext false false ["c1"] ([Toy.c1], None);
     EvWaitWithInterval Toy.c1 250 (0, None)].
Proof. split; vm_compute; reflexivity. Qed.



Example Log_latest_tail_10 :
  trace (snd (Log Scripts.logs_latest_10 Toy.log_options (Toy.world Toy.one))) =
  [EvMakeChan 1;
   EvGetContainersByContext false true [] ([Toy.c1], None);
   EvRuntimeLog [Toy.c1]
     {| Details := false; Follow := false; Timestamps := false; Multi := false;
        WaitGroup := true |} None;
   EvRecv []].
Proof. vm_compute. reflexivity. Qed.

(** Beyond the range of int the product wraps around: a tail count of
    2^62 with two containers gives a negative capacity, on which [make]
    panics. *)
Example Log_capacity_wraps :
  Log_capacity {| logs_cmd := Toy.with_args ["c1"; "c2"]; logs_Tail := 2 ^ 62;
                  logs_Latest := false |} = - 2 ^ 63 + 1
  ∧ fst (Log {| logs_cmd := Toy.with_args ["c1"; "c2"]; logs_Tail := 2 ^ 62;
                logs_Latest := false |} Toy.log_options (Toy.world Toy.three)) = Panic.
Proof. split; vm_compute; reflexivity. Qed.

(** A capacity that is not negative but beyond what [make] accepts: a tail
    count of 2^62 with one container. *)
Example Log_capacity_too_large :
  Log_capacity {| logs_cmd := Toy.with_args ["c1"]; logs_Tail := 2 ^ 62;
                  logs_Latest := false |} = 2 ^ 62 + 1
  ∧ Log {| logs_cmd := Toy.with_args ["c1"]; logs_Tail := 2 ^ 62;
           logs_Latest := false |} Toy.log_options (Toy.world Toy.one) =
    (Panic, Toy.world Toy.one).
Proof. split; vm_compute; reflexivity. Qed.

(** A failed creation, with no handle and with one. *)
Lemma CreateContainer_dereferences_handle_on_error_witness :
  fst (CreateContainer Toy.create_values (Toy.world (Toy.create_fails None))) = Panic
  ∧ fst (CreateContainer Toy.create_values (Toy.world (Toy.create_fails (Some Toy.c1)))) =
    Ret ("c1", Some Toy.ENOENT).
Proof.
  split.
  - apply (CreateContainer_dereferences_handle_on_error Toy.create_values
             (Toy.world (Toy.create_fails None)) _ None None Toy.ENOENT eq_refl).
    reflexivity.
  - rewrite (proj1 (CreateContainer_dereferences_handle_on_error Toy.create_values
                      (Toy.world (Toy.create_fails (Some Toy.c1))) _
                      (Some Toy.c1) None Toy.ENOENT eq_refl)).
    reflexivity.
Defined.

(** A detached run whose start succeeds. *)
Lemma Run_detached_prints_id_and_returns_0_witness :
  let r := Run (Toy.run_flags [] false []) 125 (Toy.world Toy.run_detached) in
  fst r = Ret (0, None)
  ∧ List.filter is_print (trace (snd r)) = [EvPrint (ID Toy.c1 +:+ newline)]
  ∧ (∃ pre, trace (snd r) =
            pre ++ [EvStart Toy.c1 false None; EvPrint (ID Toy.c1 +:+ newline)])
  ∧ List.filter is_start_attach (trace (snd r)) = []
  ∧ List.filter is_wait (trace (snd r)) = [].
Proof.
  intros r.
  apply (Run_detached_prints_id_and_returns_0 (Toy.run_flags [] false []) 125
           (Toy.world Toy.run_detached) (fst r) (snd r) (trace (snd r))
           Toy.c1 {| Detach := true |} false);
    [ apply run_is_pair | reflexivity | vm_compute; elem_find | reflexivity
    | vm_compute; elem_find ].
Defined.

(** An attached run whose start is refused for lack of permission. *)
Lemma Run_start_failure_exit_code_witness :
  ∃ code,
    fst (Run (Toy.run_flags [] false []) 125 (Toy.world Toy.run_eperm)) =
      Ret (code, Some Toy.EPERM)
    ∧ (GoString.Contains (Error Toy.EPERM) "permission denied" → code = 126)
    ∧ (¬ GoString.Contains (Error Toy.EPERM) "permission denied" → code = 127).
Proof.
  apply (Run_start_failure_exit_code (Toy.run_flags [] false []) 125
           (Toy.world Toy.run_eperm) _
           (snd (Run (Toy.run_flags [] false []) 125 (Toy.world Toy.run_eperm)))
           (trace (snd (Run (Toy.run_flags [] false []) 125 (Toy.world Toy.run_eperm))))
           Toy.EPERM);
    [ apply run_is_pair | reflexivity | ].
  right. exists Toy.c1, (Some os_Stdout), (Some os_Stderr), None, "", false, true, false.
  split; [vm_compute; elem_find | discriminate].
Defined.

Example Run_permission_denied :
  fst (Run (Toy.run_flags [] false []) 125 (Toy.world Toy.run_eperm)) =
  Ret (126, Some Toy.EPERM).
Proof. vm_compute. reflexivity. Qed.

(** [podman run --attach stdout], without -i. *)
Lemma Run_attach_list_selects_streams_witness :
  let c := Toy.run_flags ["attach"] false ["stdout"] in
  Some os_Stdout = (if attach_lists c "stdout" then Some os_Stdout else None)
  ∧ None = (if attach_lists c "stderr" then Some os_Stderr else None)
  ∧ None = (if attach_lists c "stdin" || Bool (run_cmd c) "interactive"
            then Some os_Stdin else None)
  ∧ (StringSlice (run_cmd c) "attach" = ["stdout"] →
     Bool (run_cmd c) "interactive" = false →
     Some os_Stdout = Some os_Stdout ∧ @None os_File = None).
Proof.
  intros c.
  apply (Run_attach_list_selects_streams c 125 (Toy.world Toy.run_attached)
           (fst (Run c 125 (Toy.world Toy.run_attached)))
           (snd (Run c 125 (Toy.world Toy.run_attached)))
           (trace (snd (Run c 125 (Toy.world Toy.run_attached))))
           (Some Toy.c1) (Some os_Stdout) None None "" false true false None);
    [ apply run_is_pair | reflexivity | reflexivity | vm_compute; elem_find ].
Defined.

(** C5, refuted as worded: with --attach stdin and without -i, stdin is
    attached although interactive mode is not set. *)
Lemma stdin_attached_without_interactive : ¬ stdin_needs_listing_and_interactive.
Proof.
  intros Hclaim.
  pose (c := Toy.run_flags ["attach"] false ["stdin"]).
  destruct (Hclaim Toy.env c 125 (Toy.world Toy.run_attached)
              (fst (Run c 125 (Toy.world Toy.run_attached)))
              (snd (Run c 125 (Toy.world Toy.run_attached)))
              (trace (snd (Run c 125 (Toy.world Toy.run_attached))))
              (Some Toy.c1) None None (Some os_Stdin) "" false true false None
              (run_is_pair _) eq_refl eq_refl
              ltac:(vm_compute; elem_find) ltac:(by eexists)) as [_ Hinteractive].
  discriminate Hinteractive.
Qed.

(** With -i and --attach stdout, stdin is attached although it is not
    listed. *)
Example Run_interactive_attach_stdout :
  trace (snd (Run (Toy.run_flags ["attach"] true ["stdout"]) 125
                (Toy.world Toy.run_attached))) =
  [EvCreateContainer (Some Toy.c1, Some {| Detach := false |}, None);
   EvStartAttachCtr (Some Toy.c1) (Some os_Stdout) None (Some os_Stdin) ""
     false true false None;
   EvWait Toy.c1 (3, None)].
Proof. vm_compute. reflexivity. Qed.

(** A container that is gone when it is waited for: with an exit file
    holding 42, without an exit file, and with a runtime that gives no
    configuration. *)
Lemma Run_exit_file_fallback_witness :
  fst (Run (Toy.run_flags [] false []) 125 (Toy.world Toy.run_gone_42)) = Ret (42, None)
  ∧ fst (Run (Toy.run_flags [] false []) 125 (Toy.world Toy.run_gone_no_file)) =
    Ret (127, None)
  ∧ fst (Run (Toy.run_flags [] false []) 125 (Toy.world Toy.run_gone_no_config)) =
    Ret (125, Some Toy.ErrRuntimeStopped).
Proof.
  pose (c := Toy.run_flags [] false []).
  pose (cfg := {| TmpDir := "/run/libpod" |}).
  assert (Hthm : ∀ s, EvWait Toy.c1 (0, Some Toy.ErrNoSuchCtr)
                        ∈ trace (snd (Run c 125 (Toy.world s))) → _) by
    (intros s Hwait;
     exact (Run_exit_file_fallback c 125 (Toy.world s)
              (fst (Run c 125 (Toy.world s))) (snd (Run c 125 (Toy.world s)))
              (trace (snd (Run c 125 (Toy.world s)))) Toy.c1 0 Toy.ErrNoSuchCtr
              (run_is_pair _) eq_refl Hwait eq_refl)).
  split; [|split].
  - destruct (Hthm Toy.run_gone_42 ltac:(vm_compute; elem_find)) as (_ & Hcfg & _).
    destruct (Hcfg cfg ltac:(vm_compute; elem_find)) as (_ & Hvalid & _).
    apply (Hvalid "42" 42); [vm_compute; elem_find | vm_compute; elem_find | reflexivity].
  - destruct (Hthm Toy.run_gone_no_file ltac:(vm_compute; elem_find)) as (_ & Hcfg & _).
    destruct (Hcfg cfg ltac:(vm_compute; elem_find)) as (_ & _ & Hfailed).
    apply Hfailed. left. exists Toy.ENOENT. vm_compute. elem_find.
  - destruct (Hthm Toy.run_gone_no_config ltac:(vm_compute; elem_find)) as (_ & _ & Hnocfg).
    apply (Hnocfg None Toy.ErrRuntimeStopped). vm_compute. elem_find.
Defined.

(** C2, refuted as worded: when the runtime gives no configuration, Run
    gives up with that error although an exit file holding 42 is there. *)
Lemma vanished_container_can_abort : ¬ vanished_container_never_aborts.
Proof.
  intros Hclaim.
  pose (c := Toy.run_flags [] false []).
  destruct (Hclaim Toy.env c 125 (Toy.world Toy.run_gone_no_config)
              (fst (Run c 125 (Toy.world Toy.run_gone_no_config)))
              (snd (Run c 125 (Toy.world Toy.run_gone_no_config)))
              (trace (snd (Run c 125 (Toy.world Toy.run_gone_no_config))))
              Toy.c1 0 Toy.ErrNoSuchCtr
              (run_is_pair _) eq_refl ltac:(vm_compute; elem_find) eq_refl)
    as [code Hres].
  vm_compute in Hres. discriminate Hres.
Qed.

Example Run_without_configuration :
  Run (Toy.run_flags [] false []) 125 (Toy.world Toy.run_gone_no_config) =
  (Ret (125, Some Toy.ErrRuntimeStopped),
   {| eng := Toy.run_gone_no_config;
      trace := [EvCreateContainer (Some Toy.c1, Some {| Detach := false |}, None);
                EvStartAttachCtr (Some Toy.c1) (Some os_Stdout) (Some os_Stderr) None ""
                  false true false None;
                EvWait Toy.c1 (0, Some Toy.ErrNoSuchCtr);
                EvGetConfig (None, Some Toy.ErrRuntimeStopped)] |}).
Proof. vm_compute. reflexivity. Qed.

(** * Further properties *)

(** ** strconv.Itoa and strconv.Atoi *)

Section Strconv.

Lemma digit_of_digit_char d : 0 <= d <= 9 → GoString.digit_of (GoString.digit_char d) = Some d.
Proof.
  intros Hd.
  assert (d = 0 ∨ d = 1 ∨ d = 2 ∨ d = 3 ∨ d = 4 ∨ d = 5 ∨ d = 6 ∨ d = 7 ∨ d = 8 ∨ d = 9)
    as Hcases by lia.
  repeat (destruct Hcases as [->|Hcases]; [reflexivity|]). by subst.
Qed.

(** One more digit read by the loop, when the value stays in [uint64]. *)
Lemma parse_digits_step d rest n :
  0 <= d <= 9 → 0 <= n → 10 * n + d <= GoInt.modulus - 1 →
  GoString.parse_digits (String (GoString.digit_char d) rest) n =
  GoString.parse_digits rest (10 * n + d).
Proof.
  intros Hd Hn Hmax. simpl. rewrite digit_of_digit_char by done.
  change ((GoInt.modulus - 1) / 10 + 1) with 1844674407370955162.
  change (GoInt.modulus - 1) with 18446744073709551615 in *.
  destruct (1844674407370955162 <=? n) eqn:Hcut; [apply Z.leb_le in Hcut; lia|].
  destruct (18446744073709551615 <? 10 * n + d) eqn:Hover; [apply Z.ltb_lt in Hover; lia|].
  done.
Qed.

Lemma parse_digits_digits fuel : ∀ n acc,
  0 <= n < 10 ^ Z.of_nat fuel → n <= GoInt.modulus - 1 →
  GoString.parse_digits (GoString.digits fuel n acc) 0 = GoString.parse_digits acc n.
Proof.
  induction fuel as [|fuel IH]; intros n acc Hn Hmax.
  - simpl in Hn. assert (n = 0) as -> by lia. done.
  - simpl GoString.digits.
    assert (Hd : 0 <= n mod 10 <= 9) by (pose proof (Z.mod_pos_bound n 10); lia).
    pose proof (Z.div_mod n 10 ltac:(lia)) as Hdm.
    destruct (n <? 10) eqn:Hlt.
    + apply Z.ltb_lt in Hlt. rewrite parse_digits_step by lia.
      rewrite Z.mod_small by lia. done.
    + apply Z.ltb_ge in Hlt.
      assert (0 <= n / 10) by (apply Z.div_pos; lia).
      rewrite IH.
      * rewrite parse_digits_step by lia. f_equal. lia.
      * rewrite Nat2Z.inj_succ, Z.pow_succ_r in Hn by lia.
        split; [done|]. apply Z.div_lt_upper_bound; lia.
      * lia.
Qed.

Lemma FormatUint_fuel n : 0 <= n → n < 10 ^ Z.of_nat (S (Z.to_nat (Z.log2 n))).
Proof.
  intros Hn. destruct (decide (n = 0)) as [->|Hne]; [done|].
  rewrite Nat2Z.inj_succ, Z2Nat.id by apply Z.log2_nonneg.
  pose proof (Z.log2_spec n ltac:(lia)) as [_ Hup].
  eapply Z.lt_le_trans; [exact Hup|].
  apply Z.pow_le_mono_l. lia.
Qed.

Lemma parse_FormatUint n :
  0 <= n <= GoInt.modulus - 1 →
  GoString.parse_digits (GoString.FormatUint n) 0 = GoString.UintOk n.
Proof.
  intros [Hn Hmax]. unfold GoString.FormatUint.
  rewrite parse_digits_digits; [done| |done]. split; [done|]. by apply FormatUint_fuel.
Qed.

Lemma digits_head fuel : ∀ n acc, ∃ d rest,
  0 <= d <= 9 ∧ GoString.digits (S fuel) n acc = String (GoString.digit_char d) rest.
Proof.
  induction fuel as [|fuel IH]; intros n acc.
  - simpl. exists (n mod 10). pose proof (Z.mod_pos_bound n 10).
    destruct (n <? 10); eexists; (split; [lia|reflexivity]).
  - change (GoString.digits (S (S fuel)) n acc) with
      (let acc' := String (GoString.digit_char (n mod 10)) acc in
       if n <? 10 then acc' else GoString.digits (S fuel) (n / 10) acc').
    simpl. destruct (n <? 10).
    + exists (n mod 10). pose proof (Z.mod_pos_bound n 10). eexists. split; [lia|reflexivity].
    + apply IH.
Qed.

Lemma Atoi_digit_head d rest :
  0 <= d <= 9 →
  GoString.Atoi (String (GoString.digit_char d) rest) =
  match GoString.parse_digits (String (GoString.digit_char d) rest) 0 with
  | GoString.UintSyntax => GoString.AtoiSyntax
  | GoString.UintRange => GoString.AtoiRange
  | GoString.UintOk v => if (GoInt.min_int <=? v) && (v <=? GoInt.max_int)
                         then GoString.AtoiOk v else GoString.AtoiRange
  end.
Proof.
  intros Hd.
  assert (d = 0 ∨ d = 1 ∨ d = 2 ∨ d = 3 ∨ d = 4 ∨ d = 5 ∨ d = 6 ∨ d = 7 ∨ d = 8 ∨ d = 9)
    as Hcases by lia.
  repeat (destruct Hcases as [->|Hcases]; [reflexivity|]). by subst.
Qed.

Lemma Atoi_Itoa n :
  GoInt.min_int <= n <= GoInt.max_int → GoString.Atoi (GoString.Itoa n) = GoString.AtoiOk n.
Proof.
  intros Hn. unfold GoString.Itoa. destruct (n <? 0) eqn:Hneg.
  - apply Z.ltb_lt in Hneg.
    assert (Hrange : 0 <= - n <= GoInt.modulus - 1)
      by (unfold GoInt.min_int, GoInt.max_int, GoInt.modulus, GoInt.width in *;
          simpl in *; lia).
    pose proof (parse_FormatUint (- n) Hrange) as Hparse.
    destruct (digits_head (Z.to_nat (Z.log2 (- n))) (- n) "") as (d & rest & Hd & Hhead).
    unfold GoString.FormatUint in *. rewrite Hhead in *.
    change ("-" +:+ String (GoString.digit_char d) rest)
      with (String "-" (String (GoString.digit_char d) rest)).
    unfold GoString.Atoi. rewrite Hparse.
    rewrite Z.opp_involutive.
    destruct (GoInt.min_int <=? n) eqn:H1, (n <=? GoInt.max_int) eqn:H2; try done; lia.
  - apply Z.ltb_ge in Hneg.
    assert (Hrange : 0 <= n <= GoInt.modulus - 1)
      by (unfold GoInt.min_int, GoInt.max_int, GoInt.modulus, GoInt.width in *;
          simpl in *; lia).
    pose proof (parse_FormatUint n Hrange) as Hparse.
    destruct (digits_head (Z.to_nat (Z.log2 n)) n "") as (d & rest & Hd & Hhead).
    unfold GoString.FormatUint in *. rewrite Hhead in *.
    rewrite Atoi_digit_head, Hparse by done.
    destruct (GoInt.min_int <=? n) eqn:H1, (n <=? GoInt.max_int) eqn:H2; try done; lia.
Qed.

(** The range of [int], and which of the two errors comes first. *)
Example Atoi_range_and_syntax :
  GoString.Atoi "9223372036854775807" = GoString.AtoiOk (2 ^ 63 - 1)
  ∧ GoString.Atoi "9223372036854775808" = GoString.AtoiRange
  ∧ GoString.Atoi "-9223372036854775808" = GoString.AtoiOk (- 2 ^ 63)
  ∧ GoString.Atoi "99999999999999999999x" = GoString.AtoiRange
  ∧ GoString.Atoi "9223372036854775808x" = GoString.AtoiSyntax
  ∧ GoString.Atoi "12x" = GoString.AtoiSyntax
  ∧ GoString.Atoi "+" = GoString.AtoiSyntax
  ∧ GoString.Atoi "" = GoString.AtoiSyntax.
Proof. repeat split; vm_compute; reflexivity. Qed.

End Strconv.

(** ** ReadExitFile *)

Section ReadExitFileProofs.
Context `{Env}.

Lemma append_empty_r s : s +:+ "" = s.
Proof. induction s as [|c s IH]; [done|]. rewrite append_cons. by rewrite IH. Qed.

Lemma parse_digits_app_nondigit s : ∀ a t acc v,
  GoString.digit_of a = None →
  GoString.parse_digits (s +:+ String a t) acc ≠ GoString.UintOk v.
Proof.
  induction s as [|c s IH]; intros a t acc v Ha.
  - change ("" +:+ String a t) with (String a t). simpl. by rewrite Ha.
  - change (String c s +:+ String a t) with (String c (s +:+ String a t)). simpl.
    destruct (GoString.digit_of c); [|done].
    destruct (_ <=? acc); [done|]. destruct (_ <? _); [done|]. by apply IH.
Qed.

Lemma Atoi_body s :
  ∃ neg body,
    (s = body ∨ s = String "+" body ∨ s = String "-" body)
    ∧ GoString.Atoi s =
      match body with
      | "" => GoString.AtoiSyntax
      | _ => match GoString.parse_digits body 0 with
             | GoString.UintSyntax => GoString.AtoiSyntax
             | GoString.UintRange => GoString.AtoiRange
             | GoString.UintOk v =>
                 let v' := if (neg : bool) then - v else v in
                 if (GoInt.min_int <=? v') && (v' <=? GoInt.max_int)
                 then GoString.AtoiOk v' else GoString.AtoiRange
             end
      end.
Proof.
  destruct s as [|c r].
  - exists false, "". split; [by left|done].
  - destruct (Ascii.eqb_spec c "+") as [Heq|Hplus];
      [subst c; exists false, r; split; [auto|done]|].
    destruct (Ascii.eqb_spec c "-") as [Heq|Hminus];
      [subst c; exists true, r; split; [auto|done]|].
    exists false, (String c r). split; [by left|].
    destruct c as [[] [] [] [] [] [] [] []]; try reflexivity; congruence.
Qed.

(** A text with a byte that is not a digit anywhere after its first byte
    is not an integer for [strconv.Atoi]. *)
Lemma Atoi_nondigit c s a t v :
  GoString.digit_of a = None →
  GoString.Atoi (String c s +:+ String a t) ≠ GoString.AtoiOk v.
Proof.
  intros Ha. change (String c s +:+ String a t) with (String c (s +:+ String a t)).
  destruct (Atoi_body (String c (s +:+ String a t))) as (neg & body & Hbody & ->).
  assert (∀ u, GoString.parse_digits body 0 ≠ GoString.UintOk u) as Hparse.
  { intros u. destruct Hbody as [<-|[[= -> <-]|[= -> <-]]].
    - change (String c (s +:+ String a t)) with (String c s +:+ String a t).
      by apply parse_digits_app_nondigit.
    - by apply parse_digits_app_nondigit.
    - by apply parse_digits_app_nondigit. }
  destruct (GoString.parse_digits body 0) as [u| |]; [by destruct (Hparse u)|..];
    by destruct body.
Qed.

(** X1: [ReadExitFile] reads back what [strconv.Itoa] wrote: when the
    exit file exists and holds the decimal text of an int n, the result is
    n with a nil error, and the engine is left as the read left it. *)
Theorem ReadExitFile_round_trip runtimeTmp ctrID w s1 s2 n :
  os_Stat (exitFile_path runtimeTmp ctrID) (eng w) = (s1, None) →
  ioutil_ReadFile (exitFile_path runtimeTmp ctrID) s1 = (s2, (GoString.Itoa n, None)) →
  GoInt.min_int <= n <= GoInt.max_int →
  fst (ReadExitFile runtimeTmp ctrID w) = Ret (n, None)
  ∧ eng (snd (ReadExitFile runtimeTmp ctrID w)) = s2.
Proof.
  intros Hstat Hread Hn. unfold ReadExitFile, exitFile_path in *. mstep.
  rewrite Hstat. simpl. rewrite Hread. simpl. by rewrite (Atoi_Itoa n Hn).
Qed.

(** X2: [ReadExitFile] never panics; with an error its code is 0; its
    error is nil exactly when the file was found, was read and its
    content is a decimal int, and then the code is that int; it asks for
    the file's status once, and reads the file at most once and only
    after a status query that succeeded. *)
Theorem ReadExitFile_outcome runtimeTmp ctrID w :
  ∃ code err evs s',
    ReadExitFile runtimeTmp ctrID w =
      (Ret (code, err), {| eng := s'; trace := trace w ++ evs |})
    ∧ (is_Some err → code = 0)
    ∧ (err = None ↔
       ∃ content,
         EvStat (exitFile_path runtimeTmp ctrID) None ∈ evs
         ∧ EvReadFile (exitFile_path runtimeTmp ctrID) (content, None) ∈ evs
         ∧ GoString.Atoi content = GoString.AtoiOk code)
    ∧ ((∃ e, List.filter is_file_access evs =
             [EvStat (exitFile_path runtimeTmp ctrID) (Some e)])
       ∨ (∃ r, List.filter is_file_access evs =
               [EvStat (exitFile_path runtimeTmp ctrID) None;
                EvReadFile (exitFile_path runtimeTmp ctrID) r])).
Proof.
  unfold ReadExitFile, exitFile_path. mstep.
  destruct (os_Stat _ _) as [s1 [e|]]; simpl.
  { do 4 eexists. rewrite <- app_assoc. split; [reflexivity|].
    split; [done|]. split; [|left; by eexists].
    split; [done|]. intros (content & Hstat & _). elem_inv Hstat. }
  destruct (ioutil_ReadFile _ _) as [s2 [content [e|]]]; simpl.
  { do 4 eexists. rewrite <- !app_assoc. split; [reflexivity|].
    split; [done|]. split; [|right; by eexists].
    split; [done|]. intros (content' & _ & Hread & _). elem_inv Hread. }
  destruct (GoString.Atoi content) eqn:Hatoi; simpl.
  all: do 4 eexists; rewrite <- !app_assoc; (split; [reflexivity|]).
  all: split; [by intros [? [=]]|]; (split; [|right; by eexists]).
  all: split; try done.
  - intros _. exists content. repeat split; [elem_find|elem_find|done].
  - intros (content' & _ & Hread & Hok). elem_inv Hread. congruence.
  - intros (content' & _ & Hread & Hok). elem_inv Hread. congruence.
Qed.

(** X3: when the status query or the read of the exit file fails with
    an error e, [ReadExitFile] returns 0 and e wrapped: the cause is that
    of e, the text is a message that names the container, a colon, and
    the text of e. *)
Theorem ReadExitFile_keeps_cause runtimeTmp ctrID w res w' evs e :
  ReadExitFile runtimeTmp ctrID w = (res, w') →
  trace w' = trace w ++ evs →
  EvStat (exitFile_path runtimeTmp ctrID) (Some e) ∈ evs
  ∨ (∃ content, EvReadFile (exitFile_path runtimeTmp ctrID) (content, Some e) ∈ evs) →
  ∃ msg,
    res = Ret (0, Some (errors_Wrapf e msg))
    ∧ errors_Cause (errors_Wrapf e msg) = errors_Cause e
    ∧ Error (errors_Wrapf e msg) = msg +:+ ": " +:+ Error e
    ∧ GoString.Contains msg ctrID.
Proof.
  unfold ReadExitFile, exitFile_path. mstep. intros Hrun Htrace Hev.
  run_cases_in Hrun; run_leaf_with Run_debug_spec Hrun Htrace.
  all: destruct Hev as [Hev|[content' Hev]]; elem_inv Hev.
  all: eexists; split; [reflexivity|]; split; [reflexivity|]; split; [reflexivity|].
  all: eexists _, ""; by rewrite append_empty_r.
Qed.

(** X4: [ReadExitFile] does not trim the content of the exit file: a
    content with a byte that is not a digit after its first byte (a
    trailing newline, say) gives code 0 and a parse error that is not a
    libpod error. *)
Theorem ReadExitFile_rejects_trailing_bytes runtimeTmp ctrID w s1 s2 c s a t :
  os_Stat (exitFile_path runtimeTmp ctrID) (eng w) = (s1, None) →
  ioutil_ReadFile (exitFile_path runtimeTmp ctrID) s1 =
    (s2, (String c s +:+ String a t, None)) →
  GoString.digit_of a = None →
  ∃ err, fst (ReadExitFile runtimeTmp ctrID w) = Ret (0, Some err)
         ∧ errors_Cause err = foreign_root
         ∧ GoString.HasPrefix (Error err)
             ("error parsing exit code for container " +:+ ctrID) = true.
Proof.
  intros Hstat Hread Ha. unfold ReadExitFile, exitFile_path in *. mstep.
  rewrite Hstat. simpl. rewrite Hread. simpl.
  pose proof (Atoi_nondigit c s a t) as Hbad.
  destruct (GoString.Atoi (String c s +:+ String a t)) eqn:Hatoi;
    [by destruct (Hbad v Ha)|..]; simpl.
  all: eexists; split; [reflexivity|]; split; [reflexivity|].
  all: apply HasPrefix_spec; unfold errors_Wrapf; simpl; by eexists.
Qed.

End ReadExitFileProofs.

(** ** Run *)

Section RunExtra.
Context `{Env}.

Lemma append_assoc' (s t u : string) : (s +:+ t) +:+ u = s +:+ (t +:+ u).
Proof. induction s as [|c s IH]; [done|]. rewrite !append_cons. by rewrite IH. Qed.

Lemma ends_here {A} (x : A) : [x] = [] ++ [x].
Proof. done. Qed.

Lemma ends_cons {A} (c : A) l p x : l = p ++ [x] → c :: l = (c :: p) ++ [x].
Proof. by intros ->. Qed.

Lemma ends_app {A} (d l p : list A) x : l = p ++ [x] → d ++ l = (d ++ p) ++ [x].
Proof. intros ->. by rewrite app_assoc. Qed.

Lemma Run_debug_panic ctr w w' : Run_debug ctr w = (Panic, w') → ctr = None.
Proof.
  unfold Run_debug. mstep. intros Hrun. by run_cases_in Hrun; simplify_eq.
Qed.

Lemma Run_attach_loop_first_invalid pre : ∀ stream post st,
  Forall (fun s => valid_stream s = true) pre →
  valid_stream stream = false →
  Run_attach_loop (pre ++ stream :: post) st = inl stream.
Proof.
  induction pre as [|s pre IH]; intros stream post st Hpre Hbad; simpl.
  - unfold valid_stream in Hbad.
    destruct (String.eqb (strings_ToLower stream) "stdout"); [done|].
    destruct (String.eqb (strings_ToLower stream) "stderr"); [done|].
    by destruct (String.eqb (strings_ToLower stream) "stdin").
  - apply Forall_cons in Hpre as [Hs Hpre]. unfold valid_stream in Hs.
    destruct (String.eqb (strings_ToLower s) "stdout"); [by apply IH|].
    destruct (String.eqb (strings_ToLower s) "stderr"); [by apply IH|].
    destruct (String.eqb (strings_ToLower s) "stdin"); [by apply IH|done].
Qed.

(** X5: when the creation fails, [Run] returns the exit code it was
    given and the creation's error, and the creation is the only call it
    makes, whether or not a handle came back. *)
Theorem Run_create_failure c exitCode w s ctr cfg e :
  shared_CreateContainer (run_cmd c) (eng w) = (s, (ctr, cfg, Some e)) →
  Run c exitCode w =
    (Ret (exitCode, Some e),
     {| eng := s; trace := trace w ++ [EvCreateContainer (ctr, cfg, Some e)] |}).
Proof. intros Hcreate. unfold Run. mstep. by rewrite Hcreate. Qed.

(** X6: in a run whose creation succeeded with a configuration that does
    not say detach, when [--attach] or [-a] is set and the [--attach] list
    holds a name that is none of stdout, stderr and stdin, [Run] returns
    the exit code it was given and an error whose cause is ErrInvalidArg
    and whose text quotes the first such name; the container, created
    already, is neither started nor waited for. *)
Theorem Run_invalid_attach_stream
    c exitCode w0 res w' evs ctr cfg pre stream post :
  Run c exitCode w0 = (res, w') →
  trace w' = trace w0 ++ evs →
  EvCreateContainer (Some ctr, Some cfg, None) ∈ evs →
  Detach cfg = false →
  IsSet (run_cmd c) "attach" || IsSet (run_cmd c) "a" = true →
  StringSlice (run_cmd c) "attach" = pre ++ stream :: post →
  Forall (fun s => valid_stream s = true) pre →
  valid_stream stream = false →
  ∃ err,
    res = Ret (exitCode, Some err)
    ∧ errors_Cause err = libpod_ErrInvalidArg
    ∧ GoString.Contains (Error err) (strconv_Quote stream)
    ∧ List.filter is_start_call evs = []
    ∧ List.filter is_wait evs = [].
Proof.
  intros Hrun Htrace Hcreate Hdetach Hattach Hlist Hpre Hbad.
  assert (Hsel : Run_select_streams (run_cmd c) = inl stream).
  { unfold Run_select_streams. rewrite Hattach, Hlist.
    by apply Run_attach_loop_first_invalid. }
  run_exec_with Run_debug_spec Run_debug_panic Hrun Htrace; elem_inv Hcreate.
  all: try congruence.
  all: try match goal with
           | Hs : Run_select_streams _ = _ |- _ => rewrite Hsel in Hs
           end; simplify_eq.
  all: eexists; split; [reflexivity|]; split; [reflexivity|].
  all: split; [unfold errors_Wrapf, GoString.Contains; simpl; rewrite !append_assoc';
               by eexists "invalid stream ", _|].
  all: by filter_events_with filter_debug_events.
Qed.

(** X7: when start-and-attach ends with ErrDetach, [Run] returns 0 and
    a nil error; that call is its last one: no wait and no removal, also
    under [--rm]. *)
Theorem Run_user_detach c exitCode w0 res w' evs ctr out err inp keys sig start rec e :
  Run c exitCode w0 = (res, w') →
  trace w' = trace w0 ++ evs →
  EvStartAttachCtr ctr out err inp keys sig start rec (Some e) ∈ evs →
  errors_Cause e = libpod_ErrDetach →
  res = Ret (0, None)
  ∧ (∃ pre, evs = pre ++ [EvStartAttachCtr ctr out err inp keys sig start rec (Some e)])
  ∧ List.filter is_wait evs = []
  ∧ List.filter is_remove evs = [].
Proof.
  intros Hrun Htrace Hattach Hcause.
  run_exec_with Run_debug_spec Run_debug_panic Hrun Htrace; elem_inv Hattach.
  all: try congruence.
  all: split; [reflexivity|]; split; [by eexists (_ :: _)|]; by filter_events_with filter_debug_events.
Qed.

(** X8: when start-and-attach fails with another error than ErrDetach,
    [Run] does not wait; without [--rm] it removes nothing and logs no
    error; with [--rm] it removes the container once, forced and keeping
    the volumes, and logs an error exactly when that removal fails. *)
Theorem Run_attach_failure_cleanup
    c exitCode w0 res w' evs ctr out err inp keys sig start rec e :
  Run c exitCode w0 = (res, w') →
  trace w' = trace w0 ++ evs →
  EvStartAttachCtr (Some ctr) out err inp keys sig start rec (Some e) ∈ evs →
  errors_Cause e ≠ libpod_ErrDetach →
  List.filter is_wait evs = []
  ∧ (IsSet (run_cmd c) "rm" = false →
     List.filter is_remove evs = [] ∧ List.filter is_error_log evs = [])
  ∧ (IsSet (run_cmd c) "rm" = true →
     ∃ r, List.filter is_remove evs = [EvRemoveContainer (Some ctr) true false r]
          ∧ List.filter is_error_log evs =
            match r with
            | Some _ => [EvLog ErrorLevel
                           ("unable to remove container " +:+ ID ctr
                            +:+ " after failing to start and attach to it")]
            | None => []
            end).
Proof.
  intros Hrun Htrace Hattach Hcause.
  run_exec_with Run_debug_spec Run_debug_panic Hrun Htrace; elem_inv Hattach.
  all: try congruence.
  all: split; [by filter_events_with filter_debug_events|]; split; intros Hrm; try congruence.
  all: try (eexists; split); by filter_events_with filter_debug_events.
Qed.

(** X9: when the wait fails with another cause than ErrNoSuchCtr, the
    error is dropped: [Run] returns the exit code it was given and a nil
    error, without asking for the configuration, looking for an exit file
    or logging an error. *)
Theorem Run_wait_failure_keeps_exit_code c exitCode w0 res w' evs ctr code e :
  Run c exitCode w0 = (res, w') →
  trace w' = trace w0 ++ evs →
  EvWait ctr (code, Some e) ∈ evs →
  errors_Cause e ≠ libpod_ErrNoSuchCtr →
  res = Ret (exitCode, None)
  ∧ List.filter is_get_config evs = []
  ∧ List.filter is_file_access evs = []
  ∧ List.filter is_error_log evs = [].
Proof.
  intros Hrun Htrace Hwait Hcause.
  run_exec_with Run_debug_spec Run_debug_panic Hrun Htrace; elem_inv Hwait.
  all: try congruence.
  all: split; [reflexivity|]; repeat split; by filter_events_with filter_debug_events.
Qed.

(** X10: when the wait succeeds, [Run] returns the container's exit
    code and a nil error, without asking for the configuration or looking
    for an exit file. *)
Theorem Run_returns_container_exit_code c exitCode w0 res w' evs ctr code :
  Run c exitCode w0 = (res, w') →
  trace w' = trace w0 ++ evs →
  EvWait ctr (code, None) ∈ evs →
  res = Ret (code, None)
  ∧ List.filter is_get_config evs = []
  ∧ List.filter is_file_access evs = [].
Proof.
  intros Hrun Htrace Hwait.
  run_exec_with Run_debug_spec Run_debug_panic Hrun Htrace; elem_inv Hwait.
  all: split; [reflexivity|]; repeat split; by filter_events_with filter_debug_events.
Qed.

(** X11: a run that was waited for and returns a nil error removes the
    container exactly when [--rm] is set; the removal is then the last
    call, not forced and with the volumes, and its result is ignored. *)
Theorem Run_removes_after_exit c exitCode w0 w' evs ctr r code :
  Run c exitCode w0 = (Ret (code, None), w') →
  trace w' = trace w0 ++ evs →
  EvWait ctr r ∈ evs →
  (IsSet (run_cmd c) "rm" = false → List.filter is_remove evs = [])
  ∧ (IsSet (run_cmd c) "rm" = true →
     ∃ pre rr,
       evs = pre ++ [EvRemoveContainer (Some ctr) false true rr]
       ∧ List.filter is_remove evs = [EvRemoveContainer (Some ctr) false true rr]).
Proof.
  intros Hrun Htrace Hwait.
  run_exec_with Run_debug_spec Run_debug_panic Hrun Htrace; elem_inv Hwait.
  all: split; intros Hrm; try congruence.
  all: try by filter_events_with filter_debug_events.
  all: eexists _, _; split; [ends_with @ends_here @ends_cons @ends_app|by filter_events_with filter_debug_events].
Qed.

End RunExtra.

Section RunExtra2.
Context `{Env}.

(** X12: [Run] panics only on a nil pointer handed to it without an
    error: the creation gave no handle or no configuration, or the
    runtime gave no configuration. *)
Theorem Run_panics_only_on_nil c exitCode w0 w' evs :
  Run c exitCode w0 = (Panic, w') →
  trace w' = trace w0 ++ evs →
  (∃ cfg, EvCreateContainer (None, cfg, None) ∈ evs)
  ∨ (∃ ctr, EvCreateContainer (ctr, None, None) ∈ evs)
  ∨ EvGetConfig (None, None) ∈ evs.
Proof.
  intros Hrun Htrace.
  run_exec_with Run_debug_spec Run_debug_panic Hrun Htrace.
  all: first [ left; eexists; elem_find
             | right; left; eexists; elem_find
             | right; right; elem_find ].
Qed.

(** X13: without [--attach], [Run] attaches stdout and stderr, and stdin
    exactly when [--interactive] is set. *)
Theorem Run_default_streams c exitCode w0 res w' evs ctr out err inp keys sig start rec r :
  Run c exitCode w0 = (res, w') →
  trace w' = trace w0 ++ evs →
  IsSet (run_cmd c) "attach" || IsSet (run_cmd c) "a" = false →
  EvStartAttachCtr ctr out err inp keys sig start rec r ∈ evs →
  out = Some os_Stdout
  ∧ err = Some os_Stderr
  ∧ inp = (if Bool (run_cmd c) "interactive" then Some os_Stdin else None).
Proof.
  intros Hrun Htrace Hattach Hcall.
  run_exec_with Run_debug_spec Run_debug_panic Hrun Htrace; elem_inv Hcall.
  all: match goal with
       | Hsel : Run_select_streams _ = inr _ |- _ =>
           unfold Run_select_streams in Hsel; rewrite Hattach in Hsel
       end.
  all: destruct (Bool (run_cmd c) "interactive"); by simplify_eq.
Qed.

(** X14: [Run] starts the container at most once, by [Start] when the
    configuration says detach and by start-and-attach otherwise; both get
    whether [--pod] is set, and start-and-attach gets the detach keys and
    the sig-proxy flag of the command line. *)
Theorem Run_starts_at_most_once c exitCode w0 res w' evs :
  Run c exitCode w0 = (res, w') →
  trace w' = trace w0 ++ evs →
  (length (List.filter is_start_call evs) <= 1)%nat
  ∧ (∀ ctr rec r,
       EvStart ctr rec r ∈ evs →
       rec = IsSet (run_cmd c) "pod"
       ∧ ∃ cfg, EvCreateContainer (Some ctr, Some cfg, None) ∈ evs ∧ Detach cfg = true)
  ∧ (∀ ctr out err inp keys sig start rec r,
       EvStartAttachCtr ctr out err inp keys sig start rec r ∈ evs →
       keys = String_ (run_cmd c) "detach-keys"
       ∧ sig = Bool (run_cmd c) "sig-proxy"
       ∧ start = true
       ∧ rec = IsSet (run_cmd c) "pod"
       ∧ ∃ cfg, EvCreateContainer (ctr, Some cfg, None) ∈ evs ∧ Detach cfg = false).
Proof.
  intros Hrun Htrace.
  run_exec_with Run_debug_spec Run_debug_panic Hrun Htrace.
  all: split; [filter_events_with filter_debug_events; lia|].
  all: split.
  all: try (intros ctr' rec' r' Hev; elem_inv Hev;
            (split; [reflexivity|]; (eexists; (split; [elem_find|done])))).
  all: intros ctr' out' err' inp' keys' sig' start' rec' r' Hev; elem_inv Hev.
  all: repeat split; eexists; (split; [elem_find|done]).
Qed.

End RunExtra2.

(** ** The batch calls *)

Section BatchExtra.
Context `{Env}.

(** X15: when [--timeout] or [--time] was changed on the command line,
    [StopContainers] stops every container with that value converted to
    uint, and logs no default timeout. *)
Theorem StopContainers_explicit_timeout cli w s ctrs :
  Changed (stop_cmd cli) "timeout" || Changed (stop_cmd cli) "time" = true →
  shortcuts_GetContainersByContext (stop_All cli) (stop_Latest cli)
    (InputArgs (stop_cmd cli)) (eng w) = (s, (ctrs, None)) →
  ∃ ok failures evs s',
    StopContainers cli w =
      (Ret (ok, failures, None), {| eng := s'; trace := trace w ++ evs |})
    ∧ omap stop_timeout evs = (fun c => (c, GoInt.to_uint (stop_Timeout cli))) <$> ctrs
    ∧ default_timeout_logs evs = 0%nat.
Proof.
  intros Hchanged Hres.
  destruct (StopContainers_run _ _ _ _ Hres) as (evs & s' & Hrun & Htm & Hlog).
  rewrite Hchanged in Htm, Hlog. eauto 10.
Qed.

(** X16: when the containers cannot be resolved, [StopContainers] and
    [KillContainers] return an empty list, an empty map and the error,
    and call no container. *)
Theorem batch_resolution_failure :
  (∀ cli w s ctrs e,
     shortcuts_GetContainersByContext (stop_All cli) (stop_Latest cli)
       (InputArgs (stop_cmd cli)) (eng w) = (s, (ctrs, Some e)) →
     StopContainers cli w =
       (Ret ([], ∅, Some e),
        {| eng := s;
           trace := trace w ++ [EvGetContainersByContext (stop_All cli) (stop_Latest cli)
                                  (InputArgs (stop_cmd cli)) (ctrs, Some e)] |}))
  ∧ (∀ cli signal w s ctrs e,
       shortcuts_GetContainersByContext (kill_All cli) (kill_Latest cli)
         (InputArgs (kill_cmd cli)) (eng w) = (s, (ctrs, Some e)) →
       KillContainers cli signal w =
         (Ret ([], ∅, Some e),
          {| eng := s;
             trace := trace w ++ [EvGetContainersByContext (kill_All cli) (kill_Latest cli)
                                    (InputArgs (kill_cmd cli)) (ctrs, Some e)] |})).
Proof.
  split.
  - intros * Hres. unfold StopContainers. mstep. by rewrite Hres.
  - intros * Hres. unfold KillContainers. mstep. by rewrite Hres.
Qed.

Lemma kill_call_events (evs : list Event) c v :
  (c, v) ∈ omap kill_call evs ↔ ∃ sig r, EvKill c sig r ∈ evs ∧ v = kill_verdict c r.
Proof.
  rewrite list_elem_of_omap. split.
  - intros (ev & Hin & Hev). destruct ev; simpl in Hev; simplify_eq. eauto.
  - intros (sig & r & Hin & ->). eexists. split; [exact Hin|done].
Qed.

(** X17: [KillContainers] signals every resolved container once, in
    order, with the signal converted to uint; the ok list holds the ids
    of the calls that succeeded and the failures map has a key for each
    id of a call that failed. *)
Theorem KillContainers_outcome cli signal w s ctrs :
  shortcuts_GetContainersByContext (kill_All cli) (kill_Latest cli)
    (InputArgs (kill_cmd cli)) (eng w) = (s, (ctrs, None)) →
  ∃ ok failures evs s',
    KillContainers cli signal w =
      (Ret (ok, failures, None), {| eng := s'; trace := trace w ++ evs |})
    ∧ fst <$> omap kill_call evs = ctrs
    ∧ omap kill_signal evs = (fun _ => GoInt.to_uint signal) <$> ctrs
    ∧ (∀ id, id ∈ ok ↔ ∃ c sig, EvKill c sig None ∈ evs ∧ ID c = id)
    ∧ (∀ id, is_Some (failures !! id) ↔ ∃ c sig e, EvKill c sig (Some e) ∈ evs ∧ ID c = id).
Proof.
  intros Hres.
  destruct (KillContainers_run _ signal _ _ _ Hres) as (evs & s' & Hrun & Hc & Hs).
  do 4 eexists. split; [exact Hrun|]. split; [exact Hc|]. split; [exact Hs|]. split.
  - intros id. rewrite batch_ok_elem. split.
    + intros (c & (sig & r & Hin & Hv)%kill_call_events).
      destruct r; simpl in Hv; simplify_eq. eauto.
    + intros (c & sig & Hin & <-). exists c. apply kill_call_events. eauto.
  - intros id. rewrite batch_failures_is_Some. split.
    + intros [[? Hl]|(c & e & (sig & r & Hin & Hv)%kill_call_events & Hid)];
        [by rewrite lookup_empty in Hl|].
      destruct r; simpl in Hv; simplify_eq. eauto 10.
    + intros (c & sig & e & Hin & Hid). right. exists c, e. split; [|done].
      apply kill_call_events. eauto.
Qed.

Lemma batch_ok_sublist (calls : list (Container * verdict)) :
  (∀ c s, (c, Succeeded s) ∈ calls → s = ID c) →
  batch_ok calls `sublist_of` ((fun cv => ID (fst cv)) <$> calls).
Proof.
  induction calls as [|[c v] calls IH]; intros Hid; simpl; [constructor|].
  assert (batch_ok calls `sublist_of` (fun cv => ID (fst cv)) <$> calls) as Hrec.
  { apply IH. intros c' s' Hin. apply Hid. by apply list_elem_of_further. }
  destruct v as [s|e]; simpl.
  - rewrite (Hid c s) by apply list_elem_of_here. by constructor.
  - by constructor.
Qed.

Lemma batch_sizes_le (calls : list (Container * verdict)) :
  (length (batch_ok calls) + size (batch_failures calls ∅) <= length calls)%nat.
Proof.
  induction calls as [|[c v] calls IH] using rev_ind; [done|].
  rewrite batch_failures_snoc, batch_ok_app, !length_app. simpl.
  destruct v as [s|e]; simpl; [lia|].
  rewrite map_size_insert. destruct (_ !! _); simpl; lia.
Qed.

(** X18: whatever the ids, distinct or not, the ok list of
    [StopContainers] is a subsequence of the resolved ids, every key of
    the failures map is a resolved id, and the two together are no more
    than the resolved containers. *)
Theorem StopContainers_bounds cli w s ctrs :
  shortcuts_GetContainersByContext (stop_All cli) (stop_Latest cli)
    (InputArgs (stop_cmd cli)) (eng w) = (s, (ctrs, None)) →
  ∃ ok failures w',
    StopContainers cli w = (Ret (ok, failures, None), w')
    ∧ ok `sublist_of` (ID <$> ctrs)
    ∧ (∀ id, is_Some (failures !! id) → id ∈ ID <$> ctrs)
    ∧ (length ok + size failures <= length ctrs)%nat.
Proof.
  intros Hres.
  destruct (StopContainers_run _ _ _ _ Hres) as (evs & s' & Hrun & Htm & _).
  assert (Hc : fst <$> omap stop_call evs = ctrs).
  { rewrite stop_call_timeout, Htm, <- list_fmap_compose. apply list_fmap_id. }
  do 3 eexists. split; [exact Hrun|]. rewrite <- (calls_ids _ _ Hc). split; [|split].
  - apply batch_ok_sublist, stop_call_succeeded.
  - intros id [[? Hl]|(c & e & Hin & <-)]%batch_failures_is_Some;
      [by rewrite lookup_empty in Hl|].
    apply list_elem_of_fmap. by exists (c, Failed e).
  - replace (length ctrs) with (length (omap stop_call evs))
      by (by rewrite <- Hc, length_fmap).
    apply batch_sizes_le.
Qed.

Lemma wait_entries_decode (evs : list Event) :
  wait_codes_in_range evs →
  GoString.Atoi <$> omap wait_ok_entry evs = GoString.AtoiOk <$> omap wait_code evs.
Proof.
  induction evs as [|ev evs IH]; intros Hrange; [done|].
  assert (wait_codes_in_range evs) as Hrest.
  { intros c t code e Hin. eapply Hrange. by apply list_elem_of_further. }
  destruct ev; simpl; try by apply IH.
  destruct res as [code [e|]]; simpl; [by apply IH|].
  f_equal; [|by apply IH]. apply Atoi_Itoa.
  eapply Hrange. apply list_elem_of_here.
Qed.

(** X19: the entries of the ok list of [WaitOnContainers] parse back,
    with [strconv.Atoi], to the exit codes of the waits that succeeded,
    in order. *)
Theorem WaitOnContainers_entries_decode cli interval w s ctrs :
  shortcuts_GetContainersByContext false (wait_Latest cli)
    (InputArgs (wait_cmd cli)) (eng w) = (s, (ctrs, None)) →
  ∃ ok failures evs s',
    WaitOnContainers cli interval w =
      (Ret (ok, failures, None), {| eng := s'; trace := trace w ++ evs |})
    ∧ (wait_codes_in_range evs →
       GoString.Atoi <$> ok = GoString.AtoiOk <$> omap wait_code evs).
Proof.
  intros Hres.
  destruct (WaitOnContainers_run _ interval _ _ _ Hres) as (evs & s' & Hrun & _ & _).
  do 4 eexists. split; [exact Hrun|]. intros Hrange.
  rewrite wait_ok_entries. by apply (wait_entries_decode _ Hrange).
Qed.

End BatchExtra.

(** ** Log *)

Section LogExtra.
Context `{Env}.

Lemma Log_print_exact lines options : ∀ w,
  Log_print lines options w =
  (Ret tt, {| eng := eng w; trace := trace w ++ (Log_line options <$> lines) |}).
Proof.
  induction lines as [|line lines IH]; intros w; simpl.
  - rewrite app_nil_r. by destruct w.
  - mstep. rewrite IH. simpl. by rewrite <- app_assoc.
Qed.

(** X20: with no container named ([--latest]), the log channel has
    capacity 1 whatever the tail count. *)
Theorem Log_capacity_no_args c :
  InputArgs (logs_cmd c) = [] → Log_capacity c = 1.
Proof.
  intros Hargs. unfold Log_capacity, GoInt.mul, GoInt.add. rewrite Hargs. simpl.
  by rewrite Z.mul_0_r.
Qed.

(** X21: a [Log] that returns nil made the channel, resolved the
    containers, handed them to the runtime with the wait group set and
    Multi set when more than one container is named, and then printed
    each line received, in order, each followed by a newline; it did
    nothing else. *)
Theorem Log_success_trace c options w w' evs :
  Log c options w = (Ret None, w') →
  trace w' = trace w ++ evs →
  ∃ ctrs lines,
    evs = [EvMakeChan (Log_capacity c);
           EvGetContainersByContext false (logs_Latest c) (InputArgs (logs_cmd c))
             (ctrs, None);
           EvRuntimeLog ctrs (Log_options c options) None;
           EvRecv lines]
          ++ (Log_line (Log_options c options) <$> lines).
Proof.
  unfold Log. intros Hrun Htrace.
  assert (Hopts :
    (if (1 <? length (InputArgs (logs_cmd c)))%nat
     then {| Details := Details options; Follow := Follow options;
             Timestamps := Timestamps options; Multi := true; WaitGroup := true |}
     else {| Details := Details options; Follow := Follow options;
             Timestamps := Timestamps options; Multi := Multi options;
             WaitGroup := true |}) = Log_options c options).
  { unfold Log_options. destruct (1 <? _)%nat; [by rewrite orb_true_r|by rewrite orb_false_r]. }
  simpl in Hrun. rewrite Hopts in Hrun. clear Hopts.
  destruct ((Log_capacity c <? 0) || (makechan_max <? Log_capacity c)); mstep; [done|].
  destruct (shortcuts_GetContainersByContext _ _ _ _) as [s1 [ctrs [e|]]]; simpl in *;
    [done|].
  destruct (runtime_Log _ _ _) as [s2 [e|]]; simpl in *; [done|].
  destruct (chan_recv_all _) as [s3 lines]; simpl in *.
  rewrite Log_print_exact in Hrun. simplify_eq. simpl in Htrace.
  rewrite <- !app_assoc in Htrace. apply app_inv_head in Htrace. subst evs.
  by exists ctrs, lines.
Qed.

(** X22: a [Log] that returns an error printed nothing and received
    nothing; the error is that of the resolution, and then the runtime
    was not asked for logs, or that of the runtime's log call. *)
Theorem Log_failure_prints_nothing c options w w' evs e :
  Log c options w = (Ret (Some e), w') →
  trace w' = trace w ++ evs →
  List.filter is_print evs = []
  ∧ List.filter is_recv evs = []
  ∧ ((∃ ctrs, EvGetContainersByContext false (logs_Latest c) (InputArgs (logs_cmd c))
                (ctrs, Some e) ∈ evs
              ∧ List.filter is_runtime_log evs = [])
     ∨ (∃ ctrs, EvGetContainersByContext false (logs_Latest c) (InputArgs (logs_cmd c))
                  (ctrs, None) ∈ evs
                ∧ EvRuntimeLog ctrs (Log_options c options) (Some e) ∈ evs)).
Proof.
  unfold Log. intros Hrun Htrace.
  assert (Hopts :
    (if (1 <? length (InputArgs (logs_cmd c)))%nat
     then {| Details := Details options; Follow := Follow options;
             Timestamps := Timestamps options; Multi := true; WaitGroup := true |}
     else {| Details := Details options; Follow := Follow options;
             Timestamps := Timestamps options; Multi := Multi options;
             WaitGroup := true |}) = Log_options c options).
  { unfold Log_options. destruct (1 <? _)%nat; [by rewrite orb_true_r|by rewrite orb_false_r]. }
  simpl in Hrun. rewrite Hopts in Hrun. clear Hopts.
  destruct ((Log_capacity c <? 0) || (makechan_max <? Log_capacity c)); mstep; [done|].
  destruct (shortcuts_GetContainersByContext _ _ _ _) as [s1 [ctrs [e1|]]]; simpl in *.
  { simplify_eq. simpl in Htrace.
    rewrite <- !app_assoc in Htrace. apply app_inv_head in Htrace. subst evs.
    repeat split. left. exists ctrs. split; [elem_find|done]. }
  destruct (runtime_Log _ _ _) as [s2 [e2|]]; simpl in *.
  { simplify_eq. simpl in Htrace.
    rewrite <- !app_assoc in Htrace. apply app_inv_head in Htrace. subst evs.
    repeat split. right. exists ctrs. split; elem_find. }
  destruct (chan_recv_all _) as [s3 lines]; simpl in *.
  rewrite Log_print_exact in Hrun. simplify_eq.
Qed.

End LogExtra.

(** ** GetLatestContainer, GetAllContainers, LookupContainer *)

Section WrapperProofs.
Context `{RuntimeLookup}.

Lemma GetAllContainers_loop_spec allContainers : ∀ containers,
  GetAllContainers_loop allContainers containers =
  containers ++ ((fun c => {| libpod_Container := Some c |}) <$> allContainers).
Proof.
  induction allContainers as [|c rest IH]; intros containers; simpl.
  - by rewrite app_nil_r.
  - rewrite IH, <- app_assoc. done.
Qed.

(** X23: [GetAllContainers] returns no wrapper with an error, and
    otherwise one wrapper for each container of the runtime, in order and
    none of them nil. *)
Theorem GetAllContainers_wraps_each s s' allContainers err :
  runtime_GetAllContainers s = (s', (allContainers, err)) →
  GetAllContainers s =
    (s', match err with
         | Some e => ([], Some e)
         | None => ((fun c => {| libpod_Container := Some c |}) <$> allContainers, None)
         end)
  ∧ (err = None →
     length (fst (snd (GetAllContainers s))) = length allContainers
     ∧ omap libpod_Container (fst (snd (GetAllContainers s))) = allContainers).
Proof.
  intros Hall. unfold GetAllContainers. rewrite Hall.
  destruct err as [e|]; [done|]. rewrite GetAllContainers_loop_spec. simpl.
  split; [done|]. intros _. split; [by rewrite length_fmap|].
  clear. induction allContainers as [|c rest IH]; [done|]. simpl. f_equal. exact IH.
Qed.

(** X24: on an error [GetLatestContainer] still returns a wrapper,
    around whatever the runtime returned, where [LookupContainer] returns
    nil; without an error [LookupContainer] wraps what the runtime
    returned. *)
Theorem lookup_wrappers_on_error idOrName s :
  (∀ e, snd (snd (runtime_GetLatestContainer s)) = Some e →
        ∃ wrapper,
          snd (GetLatestContainer s) = (Some wrapper, Some e)
          ∧ libpod_Container wrapper = fst (snd (runtime_GetLatestContainer s)))
  ∧ (∀ e, snd (snd (runtime_LookupContainer idOrName s)) = Some e →
          snd (LookupContainer idOrName s) = (None, Some e))
  ∧ (snd (snd (runtime_LookupContainer idOrName s)) = None →
     snd (LookupContainer idOrName s) =
     (Some {| libpod_Container := fst (snd (runtime_LookupContainer idOrName s)) |}, None)).
Proof.
  unfold GetLatestContainer, LookupContainer.
  destruct (runtime_GetLatestContainer s) as [s1 [c1 e1]].
  destruct (runtime_LookupContainer idOrName s) as [s2 [c2 e2]]. simpl.
  split; [|split].
  - intros e ->. by eexists.
  - by intros e ->.
  - by intros ->.
Qed.

End WrapperProofs.

(** ** Concrete runs for the further properties *)

Lemma ReadExitFile_round_trip_witness :
  fst (ReadExitFile "/run/libpod" "c1" (Toy.world Toy.run_gone_42)) = Ret (42, None)
  ∧ eng (snd (ReadExitFile "/run/libpod" "c1" (Toy.world Toy.run_gone_42))) =
    Toy.run_gone_42.
Proof.
  apply (ReadExitFile_round_trip "/run/libpod" "c1" (Toy.world Toy.run_gone_42)
           Toy.run_gone_42 Toy.run_gone_42 42); [reflexivity|reflexivity|].
  vm_compute. split; discriminate.
Defined.

Lemma ReadExitFile_keeps_cause_witness :
  ∃ msg,
    fst (ReadExitFile "/run/libpod" "c1" (Toy.world Toy.run_gone_no_file)) =
      Ret (0, Some (errors_Wrapf Toy.ENOENT msg))
    ∧ errors_Cause (errors_Wrapf Toy.ENOENT msg) = errors_Cause Toy.ENOENT
    ∧ Error (errors_Wrapf Toy.ENOENT msg) = msg +:+ ": " +:+ Error Toy.ENOENT
    ∧ GoString.Contains msg "c1".
Proof.
  apply (ReadExitFile_keeps_cause "/run/libpod" "c1" (Toy.world Toy.run_gone_no_file) _
           (snd (ReadExitFile "/run/libpod" "c1" (Toy.world Toy.run_gone_no_file)))
           (trace (snd (ReadExitFile "/run/libpod" "c1" (Toy.world Toy.run_gone_no_file))))
           Toy.ENOENT);
    [apply run_is_pair | reflexivity | left; vm_compute; elem_find].
Defined.

Lemma ReadExitFile_rejects_trailing_bytes_witness :
  ∃ err,
    fst (ReadExitFile "/run/libpod" "c1" (Toy.world Scripts.run_gone_newline)) =
      Ret (0, Some err)
    ∧ errors_Cause err = foreign_root
    ∧ GoString.HasPrefix (Error err) ("error parsing exit code for container " +:+ "c1")
      = true.
Proof.
  apply (ReadExitFile_rejects_trailing_bytes "/run/libpod" "c1"
           (Toy.world Scripts.run_gone_newline) Scripts.run_gone_newline
           Scripts.run_gone_newline "4" "2" (ascii_of_nat 10) "");
    reflexivity.
Defined.

Lemma Atoi_Itoa_witness :
  GoString.Atoi (GoString.Itoa (- 2 ^ 63)) = GoString.AtoiOk (- 2 ^ 63).
Proof. apply (Atoi_Itoa (- 2 ^ 63)). vm_compute. split; discriminate. Defined.

(** A creation that fails without a handle. *)
Lemma Run_create_failure_witness :
  Run (Toy.run_flags [] false []) 125 (Toy.world (Toy.create_fails None)) =
  (Ret (125, Some Toy.ENOENT),
   {| eng := Toy.create_fails None;
      trace := [] ++ [EvCreateContainer (None, None, Some Toy.ENOENT)] |}).
Proof.
  exact (Run_create_failure (Toy.run_flags [] false []) 125
           (Toy.world (Toy.create_fails None)) (Toy.create_fails None)
           None None Toy.ENOENT eq_refl).
Defined.

(** [podman run --attach stdout --attach bogus]. *)
Lemma Run_invalid_attach_stream_witness :
  let r := Run (Toy.run_flags ["attach"] false ["stdout"; "bogus"]) 125
             (Toy.world Toy.run_attached) in
  let evs := trace (snd r) in
  ∃ err,
    fst r = Ret (125, Some err)
    ∧ errors_Cause err = libpod_ErrInvalidArg
    ∧ GoString.Contains (Error err) (strconv_Quote "bogus")
    ∧ List.filter is_start_call evs = []
    ∧ List.filter is_wait evs = [].
Proof.
  intros r evs.
  apply (Run_invalid_attach_stream (Toy.run_flags ["attach"] false ["stdout"; "bogus"]) 125
           (Toy.world Toy.run_attached) (fst r) (snd r) evs Toy.c1 {| Detach := false |}
           ["stdout"] "bogus" []);
    [ apply run_is_pair | reflexivity | vm_compute; elem_find | reflexivity
    | reflexivity | reflexivity | repeat constructor | reflexivity ].
Defined.

(** [podman run --rm] from which the user detaches. *)
Lemma Run_user_detach_witness :
  let r := Run (Toy.run_flags ["rm"] false []) 125 (Toy.world Scripts.run_user_detach) in
  let evs := trace (snd r) in
  fst r = Ret (0, None)
  ∧ (∃ pre, evs = pre ++ [EvStartAttachCtr (Some Toy.c1) (Some os_Stdout) (Some os_Stderr)
                            None "" false true false (Some Toy.ErrDetach)])
  ∧ List.filter is_wait evs = []
  ∧ List.filter is_remove evs = [].
Proof.
  intros r evs.
  apply (Run_user_detach (Toy.run_flags ["rm"] false []) 125
           (Toy.world Scripts.run_user_detach) (fst r) (snd r) evs);
    [ apply run_is_pair | reflexivity | vm_compute; elem_find | reflexivity ].
Defined.

(** [podman run --rm] whose start is refused. *)
Lemma Run_attach_failure_cleanup_witness :
  let c := Toy.run_flags ["rm"] false [] in
  let r := Run c 125 (Toy.world Toy.run_eperm) in
  let evs := trace (snd r) in
  List.filter is_wait evs = []
  ∧ (IsSet (run_cmd c) "rm" = false →
     List.filter is_remove evs = [] ∧ List.filter is_error_log evs = [])
  ∧ (IsSet (run_cmd c) "rm" = true →
     ∃ r', List.filter is_remove evs = [EvRemoveContainer (Some Toy.c1) true false r']
           ∧ List.filter is_error_log evs =
             match r' with
             | Some _ => [EvLog ErrorLevel
                            ("unable to remove container " +:+ ID Toy.c1
                             +:+ " after failing to start and attach to it")]
             | None => []
             end).
Proof.
  intros c r evs.
  apply (Run_attach_failure_cleanup c 125 (Toy.world Toy.run_eperm) (fst r) (snd r) evs
           Toy.c1 (Some os_Stdout) (Some os_Stderr) None "" false true false Toy.EPERM);
    [ apply run_is_pair | reflexivity | vm_compute; elem_find | discriminate ].
Defined.

(** A wait that fails although the container is still there. *)
Lemma Run_wait_failure_keeps_exit_code_witness :
  let r := Run (Toy.run_flags [] false []) 125 (Toy.world Scripts.run_wait_fails) in
  let evs := trace (snd r) in
  fst r = Ret (125, None)
  ∧ List.filter is_get_config evs = []
  ∧ List.filter is_file_access evs = []
  ∧ List.filter is_error_log evs = [].
Proof.
  intros r evs.
  apply (Run_wait_failure_keeps_exit_code (Toy.run_flags [] false []) 125
           (Toy.world Scripts.run_wait_fails) (fst r) (snd r) evs Toy.c1 0 Toy.ENOENT);
    [ apply run_is_pair | reflexivity | vm_compute; elem_find | discriminate ].
Defined.

(** A container that exits with code 3. *)
Lemma Run_returns_container_exit_code_witness :
  let r := Run (Toy.run_flags [] false []) 125 (Toy.world Toy.run_attached) in
  let evs := trace (snd r) in
  fst r = Ret (3, None)
  ∧ List.filter is_get_config evs = []
  ∧ List.filter is_file_access evs = [].
Proof.
  intros r evs.
  apply (Run_returns_container_exit_code (Toy.run_flags [] false []) 125
           (Toy.world Toy.run_attached) (fst r) (snd r) evs Toy.c1 3);
    [ apply run_is_pair | reflexivity | vm_compute; elem_find ].
Defined.

(** [podman run --rm] of a container that exits with code 3. *)
Lemma Run_removes_after_exit_witness :
  let c := Toy.run_flags ["rm"] false [] in
  let evs := trace (snd (Run c 125 (Toy.world Toy.run_attached))) in
  (IsSet (run_cmd c) "rm" = false → List.filter is_remove evs = [])
  ∧ (IsSet (run_cmd c) "rm" = true →
     ∃ pre rr,
       evs = pre ++ [EvRemoveContainer (Some Toy.c1) false true rr]
       ∧ List.filter is_remove evs = [EvRemoveContainer (Some Toy.c1) false true rr]).
Proof.
  intros c evs.
  apply (Run_removes_after_exit c 125 (Toy.world Toy.run_attached)
           (snd (Run c 125 (Toy.world Toy.run_attached))) evs Toy.c1 (3, None) 3);
    [ reflexivity | reflexivity | vm_compute; elem_find ].
Defined.

(** A creation that gives no handle and no error. *)
Lemma Run_panics_only_on_nil_witness :
  let evs := trace (snd (Run (Toy.run_flags [] false []) 125
                           (Toy.world Scripts.create_nil))) in
  (∃ cfg, EvCreateContainer (None, cfg, None) ∈ evs)
  ∨ (∃ ctr, EvCreateContainer (ctr, None, None) ∈ evs)
  ∨ EvGetConfig (None, None) ∈ evs.
Proof.
  intros evs.
  apply (Run_panics_only_on_nil (Toy.run_flags [] false []) 125
           (Toy.world Scripts.create_nil)
           (snd (Run (Toy.run_flags [] false []) 125 (Toy.world Scripts.create_nil))) evs);
    reflexivity.
Defined.

(** [podman run -i] with no --attach. *)
Lemma Run_default_streams_witness :
  let c := Toy.run_flags [] true [] in
  Some os_Stdout = Some os_Stdout
  ∧ Some os_Stderr = Some os_Stderr
  ∧ Some os_Stdin = (if Bool (run_cmd c) "interactive" then Some os_Stdin else None).
Proof.
  intros c.
  apply (Run_default_streams c 125 (Toy.world Toy.run_attached)
           (fst (Run c 125 (Toy.world Toy.run_attached)))
           (snd (Run c 125 (Toy.world Toy.run_attached)))
           (trace (snd (Run c 125 (Toy.world Toy.run_attached))))
           (Some Toy.c1) (Some os_Stdout) (Some os_Stderr) (Some os_Stdin)
           "" false true false None);
    [ apply run_is_pair | reflexivity | reflexivity | vm_compute; elem_find ].
Defined.

(** An attached run and its one start call. *)
Lemma Run_starts_at_most_once_witness :
  let c := Toy.run_flags [] false [] in
  let evs := trace (snd (Run c 125 (Toy.world Toy.run_attached))) in
  (length (List.filter is_start_call evs) <= 1)%nat
  ∧ (∀ ctr rec r,
       EvStart ctr rec r ∈ evs →
       rec = IsSet (run_cmd c) "pod"
       ∧ ∃ cfg, EvCreateContainer (Some ctr, Some cfg, None) ∈ evs ∧ Detach cfg = true)
  ∧ (∀ ctr out err inp keys sig start rec r,
       EvStartAttachCtr ctr out err inp keys sig start rec r ∈ evs →
       keys = String_ (run_cmd c) "detach-keys"
       ∧ sig = Bool (run_cmd c) "sig-proxy"
       ∧ start = true
       ∧ rec = IsSet (run_cmd c) "pod"
       ∧ ∃ cfg, EvCreateContainer (ctr, Some cfg, None) ∈ evs ∧ Detach cfg = false).
Proof.
  intros c evs.
  apply (Run_starts_at_most_once c 125 (Toy.world Toy.run_attached)
           (fst (Run c 125 (Toy.world Toy.run_attached)))
           (snd (Run c 125 (Toy.world Toy.run_attached))) evs);
    [ apply run_is_pair | reflexivity ].
Defined.

(** [podman stop --timeout 3 c1 c2 c3]. *)
Lemma StopContainers_explicit_timeout_witness :
  ∃ ok failures evs s',
    StopContainers Scripts.stop_timeout_3 (Toy.world Toy.three) =
      (Ret (ok, failures, None), {| eng := s'; trace := [] ++ evs |})
    ∧ omap stop_timeout evs =
      (fun c => (c, GoInt.to_uint 3)) <$> [Toy.c1; Toy.c2; Toy.c3]
    ∧ default_timeout_logs evs = 0%nat.
Proof.
  exact (StopContainers_explicit_timeout Scripts.stop_timeout_3 (Toy.world Toy.three)
           Toy.three [Toy.c1; Toy.c2; Toy.c3] eq_refl eq_refl).
Defined.

(** A stop and a kill when no container can be resolved. *)
Lemma batch_resolution_failure_witness :
  StopContainers Toy.stop_three (Toy.world Scripts.unresolved) =
    (Ret ([], ∅, Some Toy.ErrNoSuchCtr),
     {| eng := Scripts.unresolved;
        trace := [] ++ [EvGetContainersByContext false false ["c1"; "c2"; "c3"]
                          ([], Some Toy.ErrNoSuchCtr)] |})
  ∧ KillContainers Toy.kill_three 9 (Toy.world Scripts.unresolved) =
    (Ret ([], ∅, Some Toy.ErrNoSuchCtr),
     {| eng := Scripts.unresolved;
        trace := [] ++ [EvGetContainersByContext false false ["c1"; "c2"; "c3"]
                          ([], Some Toy.ErrNoSuchCtr)] |}).
Proof.
  destruct (@batch_resolution_failure Toy.env) as [Hstop Hkill].
  split.
  - exact (Hstop Toy.stop_three (Toy.world Scripts.unresolved) Scripts.unresolved
             [] Toy.ErrNoSuchCtr eq_refl).
  - exact (Hkill Toy.kill_three 9 (Toy.world Scripts.unresolved) Scripts.unresolved
             [] Toy.ErrNoSuchCtr eq_refl).
Defined.

(** SIGTERM to c1, c2 and c3. *)
Lemma KillContainers_outcome_witness :
  ∃ ok failures evs s',
    KillContainers Toy.kill_three 15 (Toy.world Toy.three) =
      (Ret (ok, failures, None), {| eng := s'; trace := [] ++ evs |})
    ∧ fst <$> omap kill_call evs = [Toy.c1; Toy.c2; Toy.c3]
    ∧ omap kill_signal evs = (fun _ => GoInt.to_uint 15) <$> [Toy.c1; Toy.c2; Toy.c3]
    ∧ (∀ id, id ∈ ok ↔ ∃ c sig, EvKill c sig None ∈ evs ∧ ID c = id)
    ∧ (∀ id, is_Some (failures !! id) ↔ ∃ c sig e, EvKill c sig (Some e) ∈ evs ∧ ID c = id).
Proof.
  exact (KillContainers_outcome Toy.kill_three 15 (Toy.world Toy.three) Toy.three
           [Toy.c1; Toy.c2; Toy.c3] eq_refl).
Defined.

(** The container c1 named twice, each stop failing. *)
Lemma StopContainers_bounds_witness :
  ∃ ok failures w',
    StopContainers Scripts.stop_twice (Toy.world Scripts.twice) =
      (Ret (ok, failures, None), w')
    ∧ ok `sublist_of` (ID <$> [Toy.c1; Toy.c1])
    ∧ (∀ id, is_Some (failures !! id) → id ∈ ID <$> [Toy.c1; Toy.c1])
    ∧ (length ok + size failures <= length [Toy.c1; Toy.c1])%nat.
Proof.
  exact (StopContainers_bounds Scripts.stop_twice (Toy.world Scripts.twice) Scripts.twice
           [Toy.c1; Toy.c1] eq_refl).
Defined.

Example StopContainers_twice :
  fst (StopContainers Scripts.stop_twice (Toy.world Scripts.twice)) =
  Ret ([], {["c1" := Toy.ENOENT]}, None).
Proof. vm_compute. reflexivity. Qed.

(** The wait on c1, c2 and c3. *)
Lemma WaitOnContainers_entries_decode_witness :
  ∃ ok failures evs s',
    WaitOnContainers Toy.wait_three 250 (Toy.world Toy.three) =
      (Ret (ok, failures, None), {| eng := s'; trace := [] ++ evs |})
    ∧ (wait_codes_in_range evs →
       GoString.Atoi <$> ok = GoString.AtoiOk <$> omap wait_code evs).
Proof.
  exact (WaitOnContainers_entries_decode Toy.wait_three 250 (Toy.world Toy.three)
           Toy.three [Toy.c1; Toy.c2; Toy.c3] eq_refl).
Defined.

Example WaitOnContainers_three_decoded :
  GoString.Atoi <$> ["0"; "137"] = [GoString.AtoiOk 0; GoString.AtoiOk 137].
Proof. vm_compute. reflexivity. Qed.

(** [podman logs --latest --tail 9223372036854775808]. *)
Lemma Log_capacity_no_args_witness : Log_capacity Scripts.logs_latest = 1.
Proof. exact (Log_capacity_no_args Scripts.logs_latest eq_refl). Defined.

(** [podman logs --tail 10 c1 c2 c3]. *)
Lemma Log_success_trace_witness :
  let r := Log Toy.logs_three Toy.log_options (Toy.world Toy.three) in
  let evs := trace (snd r) in
  ∃ ctrs lines,
    evs = [EvMakeChan (Log_capacity Toy.logs_three);
           EvGetContainersByContext false false ["c1"; "c2"; "c3"] (ctrs, None);
           EvRuntimeLog ctrs (Log_options Toy.logs_three Toy.log_options) None;
           EvRecv lines]
          ++ (Log_line (Log_options Toy.logs_three Toy.log_options) <$> lines).
Proof.
  intros r evs.
  apply (Log_success_trace Toy.logs_three Toy.log_options (Toy.world Toy.three) (snd r) evs);
    reflexivity.
Defined.

(** [podman logs] when no container can be resolved. *)
Lemma Log_failure_prints_nothing_witness :
  let r := Log Toy.logs_three Toy.log_options (Toy.world Scripts.unresolved) in
  let evs := trace (snd r) in
  List.filter is_print evs = []
  ∧ List.filter is_recv evs = []
  ∧ ((∃ ctrs, EvGetContainersByContext false false ["c1"; "c2"; "c3"]
                (ctrs, Some Toy.ErrNoSuchCtr) ∈ evs
              ∧ List.filter is_runtime_log evs = [])
     ∨ (∃ ctrs, EvGetContainersByContext false false ["c1"; "c2"; "c3"] (ctrs, None) ∈ evs
                ∧ EvRuntimeLog ctrs (Log_options Toy.logs_three Toy.log_options)
                    (Some Toy.ErrNoSuchCtr) ∈ evs)).
Proof.
  intros r evs.
  apply (Log_failure_prints_nothing Toy.logs_three Toy.log_options
           (Toy.world Scripts.unresolved) (snd r) evs Toy.ErrNoSuchCtr);
    reflexivity.
Defined.

(** The containers c1, c2 and c3, wrapped. *)
Lemma GetAllContainers_wraps_each_witness :
  GetAllContainers Toy.three =
    (Toy.three,
     ((fun c => {| libpod_Container := Some c |}) <$> [Toy.c1; Toy.c2; Toy.c3], None))
  ∧ (@None error = None →
     length (fst (snd (GetAllContainers Toy.three))) = length [Toy.c1; Toy.c2; Toy.c3]
     ∧ omap libpod_Container (fst (snd (GetAllContainers Toy.three))) =
       [Toy.c1; Toy.c2; Toy.c3]).
Proof.
  exact (GetAllContainers_wraps_each Toy.three Toy.three [Toy.c1; Toy.c2; Toy.c3] None
           eq_refl).
Defined.

(** The lookups when nothing can be resolved, and the lookup of c1 among
    c1, c2 and c3. *)
Lemma lookup_wrappers_on_error_witness :
  (∃ wrapper,
     snd (GetLatestContainer Scripts.unresolved) = (Some wrapper, Some Toy.ErrNoSuchCtr)
     ∧ libpod_Container wrapper = None)
  ∧ snd (LookupContainer "c1" Scripts.unresolved) = (None, Some Toy.ErrNoSuchCtr)
  ∧ snd (LookupContainer "c1" Toy.three) =
    (Some {| libpod_Container := Some Toy.c1 |}, None).
Proof.
  destruct (@lookup_wrappers_on_error Toy.env Scripts.lookup "c1" Scripts.unresolved)
    as (Hlatest & Hlookup & _).
  destruct (@lookup_wrappers_on_error Toy.env Scripts.lookup "c1" Toy.three)
    as (_ & _ & Hfound).
  split; [exact (Hlatest Toy.ErrNoSuchCtr eq_refl)|].
  split; [exact (Hlookup Toy.ErrNoSuchCtr eq_refl) | exact (Hfound eq_refl)].
Defined.
